(** * Wake Session Brain: a shallow embedding of [wakeSessionBrain.ts]

    The brain is a small state machine: a phase, three counters, a
    responsiveness level, the tools tried so far, and the tools enabled
    by the user's content preferences.  Every method of the class
    [WakeSessionBrain] becomes a function on an explicit brain value
    (the object's [state] and its [personaId]).

    Numbers are integers in [Z]: the counters only ever see [++],
    [- 1], [- 2], [Math.max], [Math.min] and [%].  Strings are sequences
    of code units below 256 (the Latin-1 range), with the whitespace and
    the lower-casing that JavaScript gives those code units. *)

From Stdlib Require Import ZArith List String Ascii Bool Lia.
Import ListNotations.
Open Scope Z_scope.

(* ================================================================== *)
(** ** The string and array primitives the brain calls *)
(* ================================================================== *)

Module Js.

(** [WhiteSpace] and [LineTerminator] below U+0100: tab, line feed,
    vertical tab, form feed, carriage return, space, no-break space.
    Both [String.prototype.trim] and the regular expression class
    [\s] use this set. *)
Definition is_space (c : ascii) : bool :=
  let n := N_of_ascii c in
  ((9 <=? n) && (n <=? 13) || (n =? 32) || (n =? 160))%N.

(** [toLowerCase] on one code unit: A-Z, and the accented capitals
    U+00C0..U+00DE except the multiplication sign U+00D7. *)
Definition lower_char (c : ascii) : ascii :=
  let n := N_of_ascii c in
  if ((65 <=? n) && (n <=? 90)
      || (192 <=? n) && (n <=? 222) && negb (n =? 215))%N
  then ascii_of_N (n + 32) else c.

Fixpoint toLowerCase (s : string) : string :=
  match s with
  | EmptyString => EmptyString
  | String c r => String (lower_char c) (toLowerCase r)
  end.

Fixpoint trimStart (s : string) : string :=
  match s with
  | EmptyString => EmptyString
  | String c r => if is_space c then trimStart r else s
  end.

Fixpoint trimEnd (s : string) : string :=
  match s with
  | EmptyString => EmptyString
  | String c r =>
      match trimEnd r with
      | EmptyString => if is_space c then EmptyString else String c EmptyString
      | r' => String c r'
      end
  end.

Definition trim (s : string) : string := trimEnd (trimStart s).

(** [s.split(/\s+/)]: the pieces between maximal runs of whitespace.
    [cur] is the piece being read, [in_ws] says that the previous
    character belonged to a separator.  A separator at either end
    leaves an empty piece there, and the empty string splits into one
    empty piece, as in JavaScript. *)
Fixpoint split_from (cur : string) (in_ws : bool) (s : string) : list string :=
  match s with
  | EmptyString => [cur]
  | String c r =>
      if is_space c then
        if in_ws then split_from cur true r
        else cur :: split_from EmptyString true r
      else split_from (cur ++ String c EmptyString) false r
  end.

Definition split_ws (s : string) : list string :=
  split_from EmptyString false s.

(** [s.includes(needle)] *)
Fixpoint includes (s needle : string) : bool :=
  prefix needle s
  || match s with
     | EmptyString => false
     | String _ r => includes r needle
     end.

(** Case folding of the [i] flag ([Canonicalize] without the [u]
    flag): a-z fold to A-Z.  The code units from 128 on never fold to
    an ASCII one, and the patterns below are ASCII, so their folding
    does not matter here. *)
Definition canonicalize (c : ascii) : ascii :=
  let n := N_of_ascii c in
  if ((97 <=? n) && (n <=? 122))%N then ascii_of_N (n - 32) else c.

Fixpoint ci_eqb (s p : string) : bool :=
  match s, p with
  | EmptyString, EmptyString => true
  | String a s', String b p' =>
      Ascii.eqb (canonicalize a) (canonicalize b) && ci_eqb s' p'
  | _, _ => false
  end.

(** A regular expression of the shape [/^(a1|a2|...)\.?$/i]. *)
Record AnchoredAlternation := { alternatives : list string }.

Definition test (re : AnchoredAlternation) (s : string) : bool :=
  existsb (fun a => ci_eqb s a || ci_eqb s (a ++ ".")) (alternatives re).

(** [a % b], the remainder that takes the sign of [a]. *)
Definition remainder (a b : Z) : Z := Z.rem a b.

(** [arr[i]] for an integer [i]: [undefined] outside the array. *)
Definition at_index {A} (arr : list A) (i : Z) : option A :=
  if i <? 0 then None else nth_error arr (Z.to_nat i).

(** [arr.slice(-n)] *)
Definition slice_last {A} (n : nat) (arr : list A) : list A :=
  skipn (List.length arr - n)%nat arr.

End Js.

(* ================================================================== *)
(** ** Data model *)
(* ================================================================== *)

Inductive SessionPhase :=
| brain_wakeup | soft_chat | encouragement | movement | verification | complete.

Inductive EngagementTool :=
| greeting | how_did_you_sleep | weather | calendar | news | gratitude
| plans_today | interesting_fact | gentle_story | body_awareness | breathing
| direct_question | humor | coffee_mention | first_step_insight
| accountability | guilt | challenge | sit_up_request | stand_up_request
| walk_request | coffee_walk | movement_verify.

Inductive ResponsivenessLevel :=
| silent | mumbling | minimal | conversing | alert.

Definition SessionPhase_eq_dec (p q : SessionPhase) : {p = q} + {p <> q}.
Proof. decide equality. Defined.

Definition EngagementTool_eq_dec (t u : EngagementTool) : {t = u} + {t <> u}.
Proof. decide equality. Defined.

Definition phase_eqb (p q : SessionPhase) : bool :=
  if SessionPhase_eq_dec p q then true else false.

(** [arr.includes(tool)] on an array of tools *)
Definition includes_tool (arr : list EngagementTool) (t : EngagementTool) : bool :=
  if in_dec EngagementTool_eq_dec t arr then true else false.

Record Preferences := {
  includeNews : bool;
  includeWeather : bool;
  includeCalendar : bool;
  includeStories : bool;
}.

(** The optional context strings; [None] is an absent property. *)
Record Context := {
  ctx_weather : option string;
  ctx_calendar : option string;
  ctx_news : option string;
  currentTime : string;
}.

Record WakeSessionState := {
  phase : SessionPhase;
  startTime : Z;
  toolsUsed : list EngagementTool;
  toolsAvailable : list EngagementTool;
  responsiveness : ResponsivenessLevel;
  silenceCount : Z;
  responseCount : Z;
  lastUserResponse : option string;
  escalationLevel : Z;
  preferences : Preferences;
  context : Context;
}.

Record WakeSessionBrain := {
  state : WakeSessionState;
  personaId : string;
}.

(** Assignments to one field of the state. *)
Definition set_phase (p : SessionPhase) (s : WakeSessionState) :=
  {| phase := p; startTime := startTime s; toolsUsed := toolsUsed s;
     toolsAvailable := toolsAvailable s; responsiveness := responsiveness s;
     silenceCount := silenceCount s; responseCount := responseCount s;
     lastUserResponse := lastUserResponse s;
     escalationLevel := escalationLevel s; preferences := preferences s;
     context := context s |}.

Definition set_toolsUsed (l : list EngagementTool) (s : WakeSessionState) :=
  {| phase := phase s; startTime := startTime s; toolsUsed := l;
     toolsAvailable := toolsAvailable s; responsiveness := responsiveness s;
     silenceCount := silenceCount s; responseCount := responseCount s;
     lastUserResponse := lastUserResponse s;
     escalationLevel := escalationLevel s; preferences := preferences s;
     context := context s |}.

Definition set_responsiveness (r : ResponsivenessLevel) (s : WakeSessionState) :=
  {| phase := phase s; startTime := startTime s; toolsUsed := toolsUsed s;
     toolsAvailable := toolsAvailable s; responsiveness := r;
     silenceCount := silenceCount s; responseCount := responseCount s;
     lastUserResponse := lastUserResponse s;
     escalationLevel := escalationLevel s; preferences := preferences s;
     context := context s |}.

Definition set_silenceCount (n : Z) (s : WakeSessionState) :=
  {| phase := phase s; startTime := startTime s; toolsUsed := toolsUsed s;
     toolsAvailable := toolsAvailable s; responsiveness := responsiveness s;
     silenceCount := n; responseCount := responseCount s;
     lastUserResponse := lastUserResponse s;
     escalationLevel := escalationLevel s; preferences := preferences s;
     context := context s |}.

Definition set_responseCount (n : Z) (s : WakeSessionState) :=
  {| phase := phase s; startTime := startTime s; toolsUsed := toolsUsed s;
     toolsAvailable := toolsAvailable s; responsiveness := responsiveness s;
     silenceCount := silenceCount s; responseCount := n;
     lastUserResponse := lastUserResponse s;
     escalationLevel := escalationLevel s; preferences := preferences s;
     context := context s |}.

Definition set_lastUserResponse (t : option string) (s : WakeSessionState) :=
  {| phase := phase s; startTime := startTime s; toolsUsed := toolsUsed s;
     toolsAvailable := toolsAvailable s; responsiveness := responsiveness s;
     silenceCount := silenceCount s; responseCount := responseCount s;
     lastUserResponse := t;
     escalationLevel := escalationLevel s; preferences := preferences s;
     context := context s |}.

Definition set_escalationLevel (n : Z) (s : WakeSessionState) :=
  {| phase := phase s; startTime := startTime s; toolsUsed := toolsUsed s;
     toolsAvailable := toolsAvailable s; responsiveness := responsiveness s;
     silenceCount := silenceCount s; responseCount := responseCount s;
     lastUserResponse := lastUserResponse s;
     escalationLevel := n; preferences := preferences s;
     context := context s |}.

Definition set_preferences (p : Preferences) (s : WakeSessionState) :=
  {| phase := phase s; startTime := startTime s; toolsUsed := toolsUsed s;
     toolsAvailable := toolsAvailable s; responsiveness := responsiveness s;
     silenceCount := silenceCount s; responseCount := responseCount s;
     lastUserResponse := lastUserResponse s;
     escalationLevel := escalationLevel s; preferences := p;
     context := context s |}.

Definition set_includeNews (v : bool) (p : Preferences) :=
  {| includeNews := v; includeWeather := includeWeather p;
     includeCalendar := includeCalendar p; includeStories := includeStories p |}.

Definition set_includeWeather (v : bool) (p : Preferences) :=
  {| includeNews := includeNews p; includeWeather := v;
     includeCalendar := includeCalendar p; includeStories := includeStories p |}.

(** A method that only touches [this.state]. *)
Definition on_state (f : WakeSessionState -> WakeSessionState)
    (b : WakeSessionBrain) : WakeSessionBrain :=
  {| state := f (state b); personaId := personaId b |}.

(* ================================================================== *)
(** ** Tool priority by phase and persona *)
(* ================================================================== *)

Definition zen_guide_priority (p : SessionPhase) : list EngagementTool :=
  match p with
  | brain_wakeup => [greeting; breathing; body_awareness; how_did_you_sleep; gentle_story]
  | soft_chat => [weather; body_awareness; gentle_story; gratitude; breathing]
  | encouragement => [first_step_insight; body_awareness; sit_up_request; plans_today]
  | movement => [sit_up_request; stand_up_request; walk_request]
  | verification => [movement_verify; direct_question]
  | complete => []
  end.

Definition morning_coach_priority (p : SessionPhase) : list EngagementTool :=
  match p with
  | brain_wakeup => [greeting; how_did_you_sleep; interesting_fact; news]
  | soft_chat => [weather; coffee_mention; interesting_fact; humor; first_step_insight]
  | encouragement => [coffee_mention; first_step_insight; calendar; plans_today; accountability]
  | movement => [coffee_walk; first_step_insight; sit_up_request; stand_up_request; walk_request]
  | verification => [movement_verify; coffee_mention]
  | complete => []
  end.

Definition strict_sergeant_priority (p : SessionPhase) : list EngagementTool :=
  match p with
  | brain_wakeup => [greeting; news]
  | soft_chat => [weather; calendar; direct_question; accountability]
  | encouragement => [challenge; guilt; accountability; sit_up_request]
  | movement => [stand_up_request; walk_request; challenge]
  | verification => [movement_verify; challenge]
  | complete => []
  end.

(** [TOOL_PRIORITY[persona]?.[phase]]: [None] is [undefined].  A key
    that only the object's prototype has (such as [toString]) gives a
    value without phase properties, hence [undefined] as well.  An empty
    array is a value, not [undefined]. *)
Definition TOOL_PRIORITY (persona : string) (p : SessionPhase)
  : option (list EngagementTool) :=
  if String.eqb persona "zen-guide" then Some (zen_guide_priority p)
  else if String.eqb persona "morning-coach" then Some (morning_coach_priority p)
  else if String.eqb persona "strict-sergeant" then Some (strict_sergeant_priority p)
  else None.

(* ================================================================== *)
(** ** The brain *)
(* ================================================================== *)

Definition getAvailableTools (preferences : Preferences) : list EngagementTool :=
  let tools :=
    [greeting; how_did_you_sleep; gratitude; plans_today;
     interesting_fact; gentle_story; body_awareness; breathing; direct_question;
     humor; coffee_mention; first_step_insight; accountability; guilt; challenge;
     sit_up_request; stand_up_request; walk_request; coffee_walk; movement_verify] in
  let tools := if includeWeather preferences then tools ++ [weather] else tools in
  let tools := if includeCalendar preferences then tools ++ [calendar] else tools in
  let tools := if includeNews preferences then tools ++ [news] else tools in
  let tools := if includeStories preferences then tools ++ [gentle_story] else tools in
  tools.

(** [new WakeSessionBrain(personaId, preferences, context)]; [now] is
    the clock reading that [new Date()] takes. *)
Definition new_WakeSessionBrain (personaId : string) (preferences : Preferences)
    (context : Context) (now : Z) : WakeSessionBrain :=
  {| personaId := personaId;
     state := {| phase := brain_wakeup;
                 startTime := now;
                 toolsUsed := [];
                 toolsAvailable := getAvailableTools preferences;
                 responsiveness := silent;
                 silenceCount := 0;
                 responseCount := 0;
                 lastUserResponse := None;
                 escalationLevel := 0;
                 preferences := preferences;
                 context := context |} |}.

Definition lazyPatterns : list Js.AnchoredAlternation :=
  [ {| Js.alternatives :=
         ["ok"; "okay"; "k"; "yes"; "yeah"; "yea"; "yep"; "no"; "nope"; "nah";
          "mm"; "mmm"; "mhm"; "hmm"; "uh"; "um"; "ah"; "oh"]%string |};
    {| Js.alternatives := ["sure"; "fine"; "alright"; "right"; "cool"]%string |} ].

Definition checkVoiceCommands (transcript : string) (s : WakeSessionState)
  : WakeSessionState :=
  let lower := Js.toLowerCase transcript in
  let s :=
    if Js.includes lower "skip news" || Js.includes lower "no news"
    then set_preferences (set_includeNews false (preferences s)) s else s in
  let s :=
    if Js.includes lower "skip weather" || Js.includes lower "no weather"
    then set_preferences (set_includeWeather false (preferences s)) s else s in
  let s :=
    if Js.includes lower "i'm awake" || Js.includes lower "i am awake"
       || Js.includes lower "i'm up"
    then set_phase verification s else s in
  s.

Definition classify (isLazy : bool) (wordCount : Z) : ResponsivenessLevel :=
  if isLazy then minimal
  else if wordCount <=? 3 then conversing
  else if wordCount <=? 6 then conversing
  else alert.

Definition recordUserResponse_state (transcript : string) (s : WakeSessionState)
  : WakeSessionState :=
  let s := set_responseCount (responseCount s + 1) s in
  let s := set_lastUserResponse (Some transcript) s in
  let lower := Js.toLowerCase (Js.trim transcript) in
  let wordCount := Z.of_nat (List.length (Js.split_ws (Js.trim transcript))) in
  let isLazy := existsb (fun pattern => Js.test pattern lower) lazyPatterns in
  let s := set_responsiveness (classify isLazy wordCount) s in
  let s :=
    match responsiveness s with
    | conversing | alert =>
        let s := set_silenceCount 0 s in
        let s := set_escalationLevel (Z.max 0 (escalationLevel s - 1)) s in
        match phase s with
        | brain_wakeup => set_phase soft_chat s
        | soft_chat =>
            if 2 <=? responseCount s then set_phase encouragement s else s
        | encouragement =>
            if 4 <=? responseCount s then set_phase movement s else s
        | _ => s
        end
    | minimal =>
        let s := set_silenceCount (Z.max 0 (silenceCount s - 2)) s in
        set_escalationLevel (Z.max 0 (escalationLevel s - 1)) s
    | _ => s
    end in
  checkVoiceCommands transcript s.

Definition recordUserResponse (transcript : string) : WakeSessionBrain -> WakeSessionBrain :=
  on_state (recordUserResponse_state transcript).

Definition recordSilence_state (s : WakeSessionState) : WakeSessionState :=
  let s := set_silenceCount (silenceCount s + 1) s in
  let s := set_responsiveness silent s in
  match phase s with
  | brain_wakeup =>
      if 4 <=? silenceCount s
      then set_escalationLevel 1 (set_phase soft_chat s)
      else s
  | soft_chat =>
      let s :=
        if 3 <=? silenceCount s
        then set_escalationLevel (Z.min 2 (escalationLevel s + 1)) s else s in
      if 6 <=? silenceCount s then set_phase encouragement s else s
  | encouragement =>
      let s := set_escalationLevel (Z.min 3 (escalationLevel s + 1)) s in
      if 8 <=? silenceCount s then set_phase movement s else s
  | movement =>
      set_escalationLevel (Z.min 4 (escalationLevel s + 1)) s
  | _ => s
  end.

Definition recordSilence : WakeSessionBrain -> WakeSessionBrain :=
  on_state recordSilence_state.

Definition markToolUsed_state (tool : EngagementTool) (s : WakeSessionState)
  : WakeSessionState :=
  if includes_tool (toolsUsed s) tool then s
  else set_toolsUsed (toolsUsed s ++ [tool]) s.

Definition markToolUsed (tool : EngagementTool) : WakeSessionBrain -> WakeSessionBrain :=
  on_state (markToolUsed_state tool).

Definition movementRepeatables : list EngagementTool :=
  [walk_request; stand_up_request; sit_up_request; coffee_walk;
   first_step_insight; direct_question; accountability].

Definition zenRepeatables : list EngagementTool :=
  [breathing; body_awareness; gentle_story; gratitude; direct_question].

Definition generalRepeatables : list EngagementTool :=
  [direct_question; coffee_mention; first_step_insight; interesting_fact;
   accountability; challenge; breathing; humor].

(** The curated list of the brain's persona for its current phase. *)
Definition priority (b : WakeSessionBrain) : list EngagementTool :=
  match TOOL_PRIORITY (personaId b) (phase (state b)) with
  | Some l => l
  | None =>
      match TOOL_PRIORITY "morning-coach" (phase (state b)) with
      | Some l => l
      | None => []
      end
  end.

Definition repeatableTools (b : WakeSessionBrain) : list EngagementTool :=
  if phase_eqb (phase (state b)) movement then movementRepeatables
  else if String.eqb (personaId b) "zen-guide" then zenRepeatables
  else generalRepeatables.

Definition getNextTool (b : WakeSessionBrain) : option EngagementTool :=
  let s := state b in
  match find (fun tool => negb (includes_tool (toolsUsed s) tool)
                          && includes_tool (toolsAvailable s) tool)
             (priority b) with
  | Some tool => Some tool
  | None =>
      let validRepeatables :=
        filter (fun tool => includes_tool (priority b) tool) (repeatableTools b) in
      if (0 <? Z.of_nat (List.length validRepeatables)) then
        let index :=
          Js.remainder (silenceCount s) (Z.of_nat (List.length validRepeatables)) in
        Js.at_index validRepeatables index
      else if (0 <? Z.of_nat (List.length (repeatableTools b))) then
        let index :=
          Js.remainder (silenceCount s) (Z.of_nat (List.length (repeatableTools b))) in
        Js.at_index (repeatableTools b) index
      else None
  end.

(** What [generateInstruction] interpolates into its text template; the
    fixed wording around these values is not part of the model. *)
Record Instruction := {
  silentHeader : bool;
  currentPhase : SessionPhase;
  escalation : Z;
  silentCount : Z;
  alreadyTried : list EngagementTool;
  nextApproach : option EngagementTool;
  variationStart : option Z;
  availableWeather : option string;
  availableCalendar : option string;
  availableNews : option string;
}.

(** The tools with a list of canned variations (four entries each). *)
Definition has_variations (t : EngagementTool) : bool :=
  match t with
  | direct_question | accountability | challenge | breathing => true
  | _ => false
  end.

(** [ctx && flag]: the string when it is present, not empty, and the
    preference is on. *)
Definition available_info (ctx : option string) (flag : bool) : option string :=
  match ctx with
  | Some (String c r) => if flag then Some (String c r) else None
  | _ => None
  end.

Definition generateInstruction (b : WakeSessionBrain) : Instruction * WakeSessionBrain :=
  let nextTool := getNextTool b in
  let s := state b in
  let isInitialGreeting :=
    (Nat.eqb (List.length (toolsUsed s)) 0) && phase_eqb (phase s) brain_wakeup in
  let instruction :=
    {| silentHeader := negb isInitialGreeting;
       currentPhase := phase s;
       escalation := escalationLevel s;
       silentCount := silenceCount s;
       alreadyTried := Js.slice_last 5 (toolsUsed s);
       nextApproach := nextTool;
       variationStart :=
         match nextTool with
         | Some t => if has_variations t
                     then Some (Js.remainder (silenceCount s) 4) else None
         | None => None
         end;
       availableWeather :=
         available_info (ctx_weather (context s)) (includeWeather (preferences s));
       availableCalendar :=
         available_info (ctx_calendar (context s)) (includeCalendar (preferences s));
       availableNews :=
         available_info (ctx_news (context s)) (includeNews (preferences s)) |} in
  let b := match nextTool with
           | Some t => markToolUsed t b
           | None => b
           end in
  (instruction, b).

Definition getState (b : WakeSessionBrain) : WakeSessionState := state b.

Definition isComplete (b : WakeSessionBrain) : bool :=
  phase_eqb (phase (state b)) complete.

Definition markComplete : WakeSessionBrain -> WakeSessionBrain :=
  on_state (set_phase complete).

(* ================================================================== *)
(** ** Sessions: sequences of calls on one brain *)
(* ================================================================== *)

Inductive Call :=
| RecordUserResponse (transcript : string)
| RecordSilence
| MarkToolUsed (tool : EngagementTool)
| GenerateInstruction
| MarkComplete.

Definition call (c : Call) (b : WakeSessionBrain) : WakeSessionBrain :=
  match c with
  | RecordUserResponse t => recordUserResponse t b
  | RecordSilence => recordSilence b
  | MarkToolUsed t => markToolUsed t b
  | GenerateInstruction => snd (generateInstruction b)
  | MarkComplete => markComplete b
  end.

(** The brain after each call of a session, the starting brain first. *)
Fixpoint observe (cs : list Call) (b : WakeSessionBrain) : list WakeSessionBrain :=
  b :: match cs with
       | [] => []
       | c :: rest => observe rest (call c b)
       end.

Definition run (cs : list Call) (b : WakeSessionBrain) : WakeSessionBrain :=
  fold_left (fun b c => call c b) cs b.

Definition phase_rank (p : SessionPhase) : Z :=
  match p with
  | brain_wakeup => 0 | soft_chat => 1 | encouragement => 2
  | movement => 3 | verification => 4 | complete => 5
  end.

Definition phase_le (p q : SessionPhase) : Prop := phase_rank p <= phase_rank q.
Definition phase_lt (p q : SessionPhase) : Prop := phase_rank p < phase_rank q.

(** The transcript carries the wake declaration that [checkVoiceCommands]
    looks for. *)
Definition says_awake (transcript : string) : bool :=
  let lower := Js.toLowerCase transcript in
  Js.includes lower "i'm awake" || Js.includes lower "i am awake"
  || Js.includes lower "i'm up".

Definition says_skip_news (transcript : string) : bool :=
  let lower := Js.toLowerCase transcript in
  Js.includes lower "skip news" || Js.includes lower "no news".

Definition says_skip_weather (transcript : string) : bool :=
  let lower := Js.toLowerCase transcript in
  Js.includes lower "skip weather" || Js.includes lower "no weather".

Definition sample_preferences : Preferences :=
  {| includeNews := true; includeWeather := true;
     includeCalendar := true; includeStories := false |}.

Definition sample_context : Context :=
  {| ctx_weather := Some "68 and sunny"%string; ctx_calendar := None;
     ctx_news := Some "Headlines"%string; currentTime := "7:00 AM"%string |}.

Definition fresh : WakeSessionBrain :=
  new_WakeSessionBrain "morning-coach" sample_preferences sample_context 0.

(* ================================================================== *)
(** ** Notions used in the statements *)
(* ================================================================== *)

(** The local values of [recordUserResponse]. *)
Definition isLazy (transcript : string) : bool :=
  existsb (fun pattern => Js.test pattern (Js.toLowerCase (Js.trim transcript)))
          lazyPatterns.

Definition wordCount (transcript : string) : Z :=
  Z.of_nat (List.length (Js.split_ws (Js.trim transcript))).

(** The state right before [recordUserResponse] looks for voice
    commands. *)
Definition engaged (transcript : string) (s : WakeSessionState) : WakeSessionState :=
  let n := responseCount s + 1 in
  {| phase :=
       if isLazy transcript then phase s
       else match phase s with
            | brain_wakeup => soft_chat
            | soft_chat => if 2 <=? n then encouragement else soft_chat
            | encouragement => if 4 <=? n then movement else encouragement
            | p => p
            end;
     startTime := startTime s;
     toolsUsed := toolsUsed s;
     toolsAvailable := toolsAvailable s;
     responsiveness := classify (isLazy transcript) (wordCount transcript);
     silenceCount :=
       if isLazy transcript then Z.max 0 (silenceCount s - 2) else 0;
     responseCount := n;
     lastUserResponse := Some transcript;
     escalationLevel := Z.max 0 (escalationLevel s - 1);
     preferences := preferences s;
     context := context s |}.

Definition clamped (b : WakeSessionBrain) : Prop :=
  0 <= escalationLevel (state b) <= 4 /\ 0 <= silenceCount (state b).

(** The call is an utterance that carries the wake declaration. *)
Definition wake_declaration (c : Call) : bool :=
  match c with
  | RecordUserResponse t => says_awake t
  | _ => false
  end.

(** The calls of a session, each with the phase before and after it. *)
Fixpoint steps (cs : list Call) (b : WakeSessionBrain)
  : list (Call * SessionPhase * SessionPhase) :=
  match cs with
  | [] => []
  | c :: rest =>
      (c, phase (state b), phase (state (call c b))) :: steps rest (call c b)
  end.

(** The moves that the specification allows: forward or staying, where
    forward includes the jump to [verification] from a strictly earlier
    phase on a wake declaration. *)
Definition claimed_move (m : Call * SessionPhase * SessionPhase) : Prop :=
  let '(c, p, q) := m in
  phase_le p q
  \/ (wake_declaration c = true /\ q = verification /\ phase_lt p q).

(** The moves that the brain makes: a wake declaration sets
    [verification] whatever the phase was, every other call moves
    forward or stays. *)
Definition brain_move (m : Call * SessionPhase * SessionPhase) : Prop :=
  let '(c, p, q) := m in
  (if wake_declaration c then q = verification else phase_le p q)
  /\ (phase_le p q
      \/ (wake_declaration c = true /\ p = complete /\ q = verification)).

Definition skips_news (c : Call) : bool :=
  match c with
  | RecordUserResponse t => says_skip_news t
  | _ => false
  end.

Definition skips_weather (c : Call) : bool :=
  match c with
  | RecordUserResponse t => says_skip_weather t
  | _ => false
  end.

(** The test of the loop in [getNextTool]. *)
Definition eligible (s : WakeSessionState) (tool : EngagementTool) : bool :=
  negb (includes_tool (toolsUsed s) tool)
  && includes_tool (toolsAvailable s) tool.

(** The curated tools that [getNextTool] has not yet handed out and may
    still hand out, in their order. *)
Definition curatedRemaining (b : WakeSessionBrain) : list EngagementTool :=
  filter (eligible (state b)) (priority b).

Fixpoint generate_times (n : nat) (b : WakeSessionBrain) : WakeSessionBrain :=
  match n with
  | O => b
  | S n' => generate_times n' (snd (generateInstruction b))
  end.

(** Element [n mod length l] of [l], the rotation that the selector
    keys by the silence count. *)
Definition rotate (l : list EngagementTool) (n : Z) : option EngagementTool :=
  nth_error l (Z.to_nat (n mod Z.of_nat (List.length l))).

(** The repeatable pool cut down to the curated tools. *)
Definition restricted_pool (b : WakeSessionBrain) : list EngagementTool :=
  filter (fun tool => includes_tool (priority b) tool) (repeatableTools b).

(** A curated tool that the loop of [getNextTool] passes over. *)
Definition passed_over (s : WakeSessionState) (u : EngagementTool) : Prop :=
  In u (toolsUsed s) \/ ~ In u (toolsAvailable s).

(** The transcript is empty or holds whitespace only. *)
Fixpoint all_space (s : string) : bool :=
  match s with
  | EmptyString => true
  | String c r => Js.is_space c && all_space r
  end.

(** Specification side: the number of whitespace-separated words of a
    transcript, counted on the transcript as it is: a word starts at every character that is
    not whitespace and does not follow such a character. *)
Fixpoint words_from (in_word : bool) (s : string) : nat :=
  match s with
  | EmptyString => O
  | String c r =>
      if Js.is_space c then words_from false r
      else ((if in_word then 0 else 1) + words_from true r)%nat
  end.

Definition spec_word_count (s : string) : nat := words_from false s.

(** The lazy acknowledgments: the bare tokens of the two patterns. *)
Definition lazy_tokens : list string :=
  ["ok"; "okay"; "k"; "yes"; "yeah"; "yea"; "yep"; "no"; "nope"; "nah";
   "mm"; "mmm"; "mhm"; "hmm"; "uh"; "um"; "ah"; "oh";
   "sure"; "fine"; "alright"; "right"; "cool"]%string.

(** The marks that can end a sentence or a clause. *)
Definition punctuation_mark (c : ascii) : bool :=
  existsb (Ascii.eqb c) ["."; ","; "!"; "?"; ";"; ":"]%char.

(** The text without the punctuation marks at its end. *)
Fixpoint strip_trailing_punctuation (s : string) : string :=
  match s with
  | EmptyString => EmptyString
  | String c r =>
      match strip_trailing_punctuation r with
      | EmptyString =>
          if punctuation_mark c then EmptyString else String c EmptyString
      | r' => String c r'
      end
  end.

(** Specification side, in the words of the claim: the text is one of
    the tokens, optionally with trailing punctuation. *)
Definition claimed_lazy_acknowledgment (s : string) : bool :=
  existsb (String.eqb (strip_trailing_punctuation s)) lazy_tokens.

(** Specification side, amended: the text is one of the tokens, on its
    own or followed by one period. *)
Definition spec_lazy_acknowledgment (s : string) : bool :=
  existsb (fun tok => String.eqb s tok || String.eqb s (tok ++ ".")) lazy_tokens.

Fixpoint string_forall (f : ascii -> bool) (s : string) : bool :=
  match s with
  | EmptyString => true
  | String c r => f c && string_forall f r
  end.

(** The characters of the patterns: lower-case letters and the period. *)
Definition pattern_char (p : ascii) : bool :=
  let n := N_of_ascii p in
  ((97 <=? n) && (n <=? 122) || (n =? 46))%N.

Definition all_ascii : list ascii := map ascii_of_nat (seq 0 256).

(** Whether reading [s] ends inside a separator, given whether it
    started in one. *)
Fixpoint ends_in_space (in_ws : bool) (s : string) : bool :=
  match s with
  | EmptyString => in_ws
  | String c r => ends_in_space (Js.is_space c) r
  end.

(* ================================================================== *)
(** ** Variation suggestions *)
(* ================================================================== *)

Module JsArray.

(** [arr.slice(start, end)] for integers: a negative bound counts from
    the end, both bounds are clamped to the array. *)
Definition relative {A} (arr : list A) (i : Z) : Z :=
  let len := Z.of_nat (List.length arr) in
  if i <? 0 then Z.max (len + i) 0 else Z.min i len.

Definition slice {A} (arr : list A) (start stop : Z) : list A :=
  let from := relative arr start in
  let to := relative arr stop in
  firstn (Z.to_nat (Z.max (to - from) 0)) (skipn (Z.to_nat from) arr).

End JsArray.

(** What [getVariationSuggestions] returns: the selected canned phrases,
    one line each, or the one generic line.  A phrase stands here for
    its position in the list that the source gives for the tool. *)
Inductive VariationText :=
| Phrases (positions : list nat)
| BeCreative.

(** [variations[tool]]: four phrases for each of four tools. *)
Definition variations (tool : EngagementTool) : option (list nat) :=
  match tool with
  | direct_question | accountability | challenge | breathing =>
      Some [0; 1; 2; 3]%nat
  | _ => None
  end.

Definition getVariationSuggestions (tool : EngagementTool) (silenceCount : Z)
  : VariationText :=
  match variations tool with
  | Some toolVariations =>
      let startIdx :=
        Js.remainder silenceCount (Z.of_nat (List.length toolVariations)) in
      Phrases (JsArray.slice toolVariations startIdx (startIdx + 2))
  | None => BeCreative
  end.

(* ================================================================== *)
(** ** The chained session: transcription, response, speech *)
(* ================================================================== *)

Module JsRegExp.

(** [/^[...]+$/]: not empty, every character in the class. *)
Fixpoint every (cls : ascii -> bool) (s : string) : bool :=
  match s with
  | EmptyString => true
  | String c r => cls c && every cls r
  end.

Definition one_or_more (cls : ascii -> bool) (s : string) : bool :=
  match s with
  | EmptyString => false
  | String _ _ => every cls s
  end.

(** What is left of [s] after the word [w], compared with the [i]
    flag. *)
Fixpoint after_word (w s : string) : option string :=
  match w, s with
  | EmptyString, _ => Some s
  | String a w', String b s' =>
      if Ascii.eqb (Js.canonicalize b) (Js.canonicalize a)
      then after_word w' s' else None
  | String _ _, EmptyString => None
  end.

(** [/^(w1|w2|...)+$/i]: the text is a run of the words.  Every word
    takes at least one character, so [fuel] as long as the text is
    enough. *)
Fixpoint run_of (words : list string) (fuel : nat) (s : string) : bool :=
  match fuel with
  | O => false
  | S fuel' =>
      existsb (fun w =>
                 match after_word w s with
                 | Some EmptyString => true
                 | Some rest => run_of words fuel' rest
                 | None => false
                 end) words
  end.

End JsRegExp.

(** [/^[\s.,!?-]+$/] *)
Definition punctuation_or_space (c : ascii) : bool :=
  Js.is_space c
  || existsb (Ascii.eqb c) ["."; ","; "!"; "?"; "-"]%char.

(** The seven [noisePatterns] of [transcribeAudio], in their order. *)
Definition noisePatterns : list (string -> bool) :=
  [ JsRegExp.one_or_more punctuation_or_space;
    JsRegExp.one_or_more (Ascii.eqb "."%char);
    (fun text =>
       JsRegExp.run_of ["um"; "uh"; "hmm"; "mhm"; "ah"]%string
                       (String.length text) text);
    Js.test {| Js.alternatives := ["thanks for watching"%string] |};
    Js.test {| Js.alternatives := ["thank you"%string] |};
    (fun text => Js.ci_eqb text "you");
    Js.test {| Js.alternatives := ["bye"%string] |} ].

(** The reply of the transcription service: it fails, or it answers
    with a text that may be missing. *)
Inductive Transcription :=
| TranscriptionFailed
| TranscriptionText (text : option string).

(** [response.text?.trim() || ''] *)
Definition trimmed_text (text : option string) : string :=
  match text with
  | Some t => Js.trim t
  | None => EmptyString
  end.

(** What a call returns, or that it threw. *)
Inductive Outcome (A : Type) :=
| Returned (a : A)
| Thrown.
Arguments Returned {A} a.
Arguments Thrown {A}.

(** [transcribeAudio]; [client] says that [initOpenAI] has run,
    [primary] and [fallback] are the replies of the two transcription
    models.  The audio buffer only shapes the request. *)
Definition transcribeAudio (client : bool) (primary fallback : Transcription)
  : Outcome string :=
  if negb client then Thrown
  else
    match primary with
    | TranscriptionText t =>
        let text := trimmed_text t in
        if existsb (fun pattern => pattern text) noisePatterns
        then Returned EmptyString
        else Returned text
    | TranscriptionFailed =>
        match fallback with
        | TranscriptionText t => Returned (trimmed_text t)
        | TranscriptionFailed => Returned EmptyString
        end
    end.

Inductive Role := user | assistant.

Definition Buffer := list Byte.byte.

(** The session fields that the functions below write; [id] and
    [config] are never written and only feed the requests. *)
Record ChainedSession := {
  brain : WakeSessionBrain;
  conversationHistory : list (Role * string);
  isProcessing : bool;
}.

Definition set_brain (b : WakeSessionBrain) (s : ChainedSession) :=
  {| brain := b; conversationHistory := conversationHistory s;
     isProcessing := isProcessing s |}.

Definition push_history (m : Role * string) (s : ChainedSession) :=
  {| brain := brain s; conversationHistory := conversationHistory s ++ [m];
     isProcessing := isProcessing s |}.

Definition set_isProcessing (v : bool) (s : ChainedSession) :=
  {| brain := brain s; conversationHistory := conversationHistory s;
     isProcessing := v |}.

Definition createChainedSession (personaId : string) (preferences : Preferences)
    (context : Context) (now : Z) : ChainedSession :=
  {| brain := new_WakeSessionBrain personaId preferences context now;
     conversationHistory := [];
     isProcessing := false |}.

(** The reply of the completion service: it fails, or it answers with a
    content that may be missing. *)
Inductive Completion :=
| CompletionFailed
| CompletionContent (content : option string).

(** The regular expression whose class holds the quotation mark
    U+0022 only, one or more times, on the trimmed message. *)
Definition isJustQuotes (userMessage : option string) : bool :=
  match userMessage with
  | Some (String c r) =>
      JsRegExp.one_or_more (Ascii.eqb (ascii_of_nat 34)) (Js.trim (String c r))
  | _ => false
  end.

(** [userMessage && userMessage.trim() && !isJustQuotes] *)
Definition hasRealMessage (userMessage : option string) : bool :=
  match userMessage with
  | Some (String c r) =>
      match Js.trim (String c r) with
      | EmptyString => false
      | String _ _ => negb (isJustQuotes userMessage)
      end
  | _ => false
  end.

(** [generateResponse(session, userMessage)]; the messages sent to the
    completion service are not part of the model, its reply is the
    parameter [completion]. *)
Definition generateResponse (client : bool) (userMessage : option string)
    (completion : Completion) (s : ChainedSession)
  : Outcome string * ChainedSession :=
  if negb client then (Thrown, s)
  else
    let s := set_brain (snd (generateInstruction (brain s))) s in
    let s :=
      if hasRealMessage userMessage then
        match userMessage with
        | Some m =>
            let s := push_history (user, m) s in
            set_brain (recordUserResponse m (brain s)) s
        | None => s
        end
      else if Nat.eqb (List.length (conversationHistory s)) 0 then s
      else
        match userMessage with
        | Some _ => set_brain (recordSilence (brain s)) s
        | None => s
        end in
    match completion with
    | CompletionContent content =>
        let assistantMessage :=
          match content with
          | Some c => c
          | None => EmptyString
          end in
        (Returned assistantMessage, push_history (assistant, assistantMessage) s)
    | CompletionFailed =>
        (Returned "I'm having trouble connecting. Are you still there?"%string, s)
    end.

(** [textToSpeech]; [speech] is the audio of the speech service, or
    [None] when the request fails. *)
Definition textToSpeech (client : bool) (speech : option Buffer) : Outcome Buffer :=
  if negb client then Thrown
  else match speech with
       | Some audio => Returned audio
       | None => Thrown
       end.

Definition processUserAudio (client : bool) (primary fallback : Transcription)
    (completion : Completion) (speech : option Buffer) (s : ChainedSession)
  : Outcome (string * string * Buffer) * ChainedSession :=
  let s := set_isProcessing true s in
  match transcribeAudio client primary fallback with
  | Thrown => (Thrown, set_isProcessing false s)
  | Returned EmptyString =>
      (Returned (EmptyString, EmptyString, []), set_isProcessing false s)
  | Returned transcript =>
      match generateResponse client (Some transcript) completion s with
      | (Thrown, s) => (Thrown, set_isProcessing false s)
      | (Returned response, s) =>
          match textToSpeech client speech with
          | Thrown => (Thrown, set_isProcessing false s)
          | Returned audioResponse =>
              (Returned (transcript, response, audioResponse),
               set_isProcessing false s)
          end
      end
  end.

Definition generateGreeting (client : bool) (completion : Completion)
    (speech : option Buffer) (s : ChainedSession)
  : Outcome (string * Buffer) * ChainedSession :=
  let s := set_isProcessing true s in
  match generateResponse client None completion s with
  | (Thrown, s) => (Thrown, set_isProcessing false s)
  | (Returned response, s) =>
      match textToSpeech client speech with
      | Thrown => (Thrown, set_isProcessing false s)
      | Returned audioResponse =>
          (Returned (response, audioResponse), set_isProcessing false s)
      end
  end.

Definition handleSilence (client : bool) (completion : Completion)
    (speech : option Buffer) (s : ChainedSession)
  : Outcome (string * Buffer) * ChainedSession :=
  let s := set_isProcessing true s in
  let s := set_brain (recordSilence (brain s)) s in
  match generateResponse client None completion s with
  | (Thrown, s) => (Thrown, set_isProcessing false s)
  | (Returned response, s) =>
      match textToSpeech client speech with
      | Thrown => (Thrown, set_isProcessing false s)
      | Returned audioResponse =>
          (Returned (response, audioResponse), set_isProcessing false s)
      end
  end.

(** The three requests that the chained routes pass to a session, each
    with the replies that the outside services give during it.  A list
    of requests is served one request after the other; requests that
    overlap in time are not part of the model. *)
Inductive Request :=
| GreetingRequest (completion : Completion) (speech : option Buffer)
| RespondRequest (primary fallback : Transcription) (completion : Completion)
                 (speech : option Buffer)
| SilenceRequest (completion : Completion) (speech : option Buffer).

Definition serve (client : bool) (r : Request) (s : ChainedSession) : ChainedSession :=
  match r with
  | GreetingRequest completion speech =>
      snd (generateGreeting client completion speech s)
  | RespondRequest primary fallback completion speech =>
      snd (processUserAudio client primary fallback completion speech s)
  | SilenceRequest completion speech =>
      snd (handleSilence client completion speech s)
  end.

Definition serve_all (client : bool) (rs : list Request) (s : ChainedSession)
  : ChainedSession :=
  fold_left (fun s r => serve client r s) rs s.

(* ================================================================== *)
(** ** Further notions used in the statements *)
(* ================================================================== *)

Definition is_utterance (c : Call) : bool :=
  match c with
  | RecordUserResponse _ => true
  | _ => false
  end.

Definition is_silence (c : Call) : bool :=
  match c with
  | RecordSilence => true
  | _ => false
  end.

Definition is_markComplete (c : Call) : bool :=
  match c with
  | MarkComplete => true
  | _ => false
  end.

(** The transcript of the last utterance among the calls, if any. *)
Fixpoint last_utterance (cs : list Call) (before : option string) : option string :=
  match cs with
  | [] => before
  | RecordUserResponse t :: rest => last_utterance rest (Some t)
  | _ :: rest => last_utterance rest before
  end.

(** The highest escalation level that a phase lets the brain reach. *)
Definition escalation_cap (p : SessionPhase) : Z :=
  match p with
  | brain_wakeup => 0
  | soft_chat => 2
  | encouragement => 3
  | _ => 4
  end.

Definition within_cap (b : WakeSessionBrain) : Prop :=
  0 <= escalationLevel (state b) <= escalation_cap (phase (state b)).

(** Phase and escalation level after [n] silences in a row on a new
    brain. *)
Definition silence_schedule (n : nat) : SessionPhase * Z :=
  match n with
  | 0%nat | 1%nat | 2%nat | 3%nat => (brain_wakeup, 0)
  | 4%nat => (soft_chat, 1)
  | 5%nat => (soft_chat, 2)
  | 6%nat => (encouragement, 2)
  | 7%nat => (encouragement, 3)
  | 8%nat => (movement, 3)
  | _ => (movement, 4)
  end.

(** The calls that a silent user leaves to the session. *)
Definition is_quiet (c : Call) : bool :=
  match c with
  | RecordSilence | GenerateInstruction | MarkToolUsed _ => true
  | _ => false
  end.

(** The brain is where [n] silences in a row take a new brain. *)
Definition on_schedule (n : nat) (b : WakeSessionBrain) : Prop :=
  (phase (state b), escalationLevel (state b)) = silence_schedule n
  /\ silenceCount (state b) = Z.of_nat n.

(** Phase after [n] utterances in a row on a new brain, each of them
    more than a lazy acknowledgment and none a wake declaration. *)
Definition engagement_ladder (n : nat) : SessionPhase :=
  match n with
  | 0%nat => brain_wakeup
  | 1%nat => soft_chat
  | 2%nat | 3%nat => encouragement
  | _ => movement
  end.

(** An utterance that is more than a lazy acknowledgment and holds no
    wake declaration. *)
Definition genuine (t : string) : bool :=
  negb (isLazy t) && negb (says_awake t).

(** The brain is where [n] genuine utterances in a row take a new
    brain. *)
Definition on_ladder (n : nat) (b : WakeSessionBrain) : Prop :=
  phase (state b) = engagement_ladder n
  /\ responseCount (state b) = Z.of_nat n
  /\ escalationLevel (state b) = 0
  /\ silenceCount (state b) = 0.

(** The two kinds of content that a voice command can turn off. *)
Inductive Topic := NewsTopic | WeatherTopic.

Definition says_skip (topic : Topic) (transcript : string) : bool :=
  match topic with
  | NewsTopic => says_skip_news transcript
  | WeatherTopic => says_skip_weather transcript
  end.

Definition topic_included (topic : Topic) (p : Preferences) : bool :=
  match topic with
  | NewsTopic => includeNews p
  | WeatherTopic => includeWeather p
  end.

Definition topic_info (topic : Topic) (i : Instruction) : option string :=
  match topic with
  | NewsTopic => availableNews i
  | WeatherTopic => availableWeather i
  end.

(** The brain calls that [generateResponse] makes. *)
Definition generateResponse_calls (client : bool) (userMessage : option string)
    (s : ChainedSession) : list Call :=
  if negb client then []
  else
    GenerateInstruction
    :: (if hasRealMessage userMessage then
          match userMessage with
          | Some m => [RecordUserResponse m]
          | None => []
          end
        else if Nat.eqb (List.length (conversationHistory s)) 0 then []
        else
          match userMessage with
          | Some _ => [RecordSilence]
          | None => []
          end).

(** The brain calls that a request makes. *)
Definition serve_calls (client : bool) (r : Request) (s : ChainedSession)
  : list Call :=
  match r with
  | GreetingRequest _ _ => generateResponse_calls client None s
  | SilenceRequest _ _ => RecordSilence :: generateResponse_calls client None s
  | RespondRequest primary fallback _ _ =>
      match transcribeAudio client primary fallback with
      | Returned (String c r) =>
          generateResponse_calls client (Some (String c r)) s
      | _ => []
      end
  end.

(** The brain calls that the chained pipeline makes: no completion, no
    tool marked from outside, utterances trimmed, not blank and not a
    run of quotation marks. *)
Definition chained_call (c : Call) : Prop :=
  match c with
  | RecordUserResponse t =>
      Js.trim t = t /\ all_space t = false /\ isJustQuotes (Some t) = false
  | RecordSilence | GenerateInstruction => True
  | _ => False
  end.

(** Two brains in the same state, the first with a persona id that
    has no table, the second the [morning-coach]. *)
Definition same_as_morning_coach (b1 b2 : WakeSessionBrain) : Prop :=
  state b1 = state b2
  /\ personaId b2 = "morning-coach"%string
  /\ personaId b1 <> "zen-guide"%string
  /\ personaId b1 <> "morning-coach"%string
  /\ personaId b1 <> "strict-sergeant"%string.

(** The user entries of a conversation history. *)
Definition user_entries (h : list (Role * string)) : list (Role * string) :=
  filter (fun m => match fst m with user => true | assistant => false end) h.

(* ================================================================== *)
(** ** What each method leaves alone *)
(* ================================================================== *)

Section Frames.

Variable transcript : string.
Variable s : WakeSessionState.

Lemma checkVoiceCommands_phase :
  phase (checkVoiceCommands transcript s)
  = if says_awake transcript then verification else phase s.
Proof.
  unfold checkVoiceCommands, says_awake.
  repeat match goal with
         | |- context [if ?c then _ else _] => destruct c
         end; reflexivity.
Qed.

Lemma checkVoiceCommands_preferences :
  preferences (checkVoiceCommands transcript s)
  = {| includeNews :=
         if says_skip_news transcript then false
         else includeNews (preferences s);
       includeWeather :=
         if says_skip_weather transcript then false
         else includeWeather (preferences s);
       includeCalendar := includeCalendar (preferences s);
       includeStories := includeStories (preferences s) |}.
Proof.
  unfold checkVoiceCommands, says_skip_news, says_skip_weather.
  destruct (preferences s) eqn:E.
  repeat match goal with
         | |- context [if ?c then _ else _] => destruct c
         end; cbn; rewrite ?E; reflexivity.
Qed.

Lemma checkVoiceCommands_frame :
  let s' := checkVoiceCommands transcript s in
  startTime s' = startTime s
  /\ toolsUsed s' = toolsUsed s
  /\ toolsAvailable s' = toolsAvailable s
  /\ responsiveness s' = responsiveness s
  /\ silenceCount s' = silenceCount s
  /\ responseCount s' = responseCount s
  /\ lastUserResponse s' = lastUserResponse s
  /\ escalationLevel s' = escalationLevel s
  /\ context s' = context s.
Proof.
  unfold checkVoiceCommands.
  repeat match goal with
         | |- context [if ?c then _ else _] => destruct c
         end; cbn; repeat split; reflexivity.
Qed.

End Frames.

Lemma classify_cases (isLazy : bool) (wordCount : Z) :
  classify isLazy wordCount
  = if isLazy then minimal else if wordCount <=? 6 then conversing else alert.
Proof.
  unfold classify. destruct isLazy; [reflexivity|].
  destruct (Z.leb_spec wordCount 3), (Z.leb_spec wordCount 6);
    try reflexivity; lia.
Qed.

Lemma recordUserResponse_state_unfold (transcript : string) (s : WakeSessionState) :
  recordUserResponse_state transcript s
  = checkVoiceCommands transcript (engaged transcript s).
Proof.
  unfold recordUserResponse_state, engaged.
  fold (isLazy transcript). fold (wordCount transcript).
  f_equal.
  rewrite classify_cases.
  destruct s as [ph st tu ta r sc rc lu el pr cx].
  destruct (isLazy transcript); cbn -[Z.leb Z.max Z.add].
  - reflexivity.
  - destruct (wordCount transcript <=? 6); cbn -[Z.leb Z.max Z.add];
      destruct ph; cbn -[Z.leb Z.max Z.add]; try reflexivity;
      match goal with
      | |- context [if ?c then _ else _] => destruct c
      end; reflexivity.
Qed.

Lemma recordSilence_counters (s : WakeSessionState) :
  let s' := recordSilence_state s in
  silenceCount s' = silenceCount s + 1
  /\ responsiveness s' = silent
  /\ toolsUsed s' = toolsUsed s
  /\ toolsAvailable s' = toolsAvailable s
  /\ preferences s' = preferences s
  /\ responseCount s' = responseCount s.
Proof.
  destruct s as [ph st tu ta r sc rc lu el pr cx].
  unfold recordSilence_state; cbn -[Z.leb Z.min Z.add].
  destruct ph; cbn -[Z.leb Z.min Z.add];
    repeat match goal with
           | |- context [if ?c then _ else _] => destruct c
           end; cbn -[Z.leb Z.min Z.add]; repeat split; reflexivity.
Qed.

Lemma recordSilence_escalation (s : WakeSessionState) :
  0 <= escalationLevel s <= 4 ->
  0 <= escalationLevel (recordSilence_state s) <= 4.
Proof.
  destruct s as [ph st tu ta r sc rc lu el pr cx]; cbn.
  intros H. unfold recordSilence_state; cbn -[Z.leb Z.min Z.add].
  destruct ph; cbn -[Z.leb Z.min Z.add];
    repeat match goal with
           | |- context [if ?c then _ else _] => destruct c
           end; cbn -[Z.leb Z.min Z.add]; lia.
Qed.

Lemma recordSilence_phase (s : WakeSessionState) :
  phase_le (phase s) (phase (recordSilence_state s)).
Proof.
  destruct s as [ph st tu ta r sc rc lu el pr cx].
  unfold recordSilence_state, phase_le; cbn -[Z.leb Z.min Z.add].
  destruct ph; cbn -[Z.leb Z.min Z.add];
    repeat match goal with
           | |- context [if ?c then _ else _] => destruct c
           end; cbn; lia.
Qed.

Lemma markToolUsed_frame (tool : EngagementTool) (s : WakeSessionState) :
  markToolUsed_state tool s
  = set_toolsUsed (if includes_tool (toolsUsed s) tool then toolsUsed s
                   else toolsUsed s ++ [tool]) s.
Proof.
  unfold markToolUsed_state. destruct (includes_tool (toolsUsed s) tool).
  - destruct s; reflexivity.
  - reflexivity.
Qed.

Lemma generateInstruction_state (b : WakeSessionBrain) :
  snd (generateInstruction b)
  = match getNextTool b with
    | Some t => markToolUsed t b
    | None => b
    end.
Proof. reflexivity. Qed.

(** A property that every call preserves holds all along a session. *)
Lemma observe_invariant (P : WakeSessionBrain -> Prop) :
  (forall c b, P b -> P (call c b)) ->
  forall cs b, P b -> Forall P (observe cs b).
Proof.
  intros Hstep cs. induction cs as [|c cs IH]; intros b Hb; cbn.
  - constructor; [assumption | constructor].
  - constructor; [assumption|]. apply IH, Hstep, Hb.
Qed.

(* ================================================================== *)
(** ** Counters and responsiveness along a session *)
(* ================================================================== *)

Lemma recordUserResponse_clamped (t : string) (b : WakeSessionBrain) :
  clamped b -> clamped (recordUserResponse t b).
Proof.
  unfold clamped, recordUserResponse, on_state; cbn [state].
  rewrite recordUserResponse_state_unfold.
  destruct (checkVoiceCommands_frame t (engaged t (state b)))
    as (_ & _ & _ & _ & Hsc & _ & _ & Hel & _).
  rewrite Hsc, Hel. cbn [engaged escalationLevel silenceCount].
  destruct (isLazy t); lia.
Qed.

Lemma recordSilence_clamped (b : WakeSessionBrain) :
  clamped b -> clamped (recordSilence b).
Proof.
  unfold clamped, recordSilence, on_state; cbn [state].
  intros [Hel Hsc]. split.
  - apply recordSilence_escalation, Hel.
  - destruct (recordSilence_counters (state b)) as (-> & _). lia.
Qed.

Lemma markToolUsed_clamped (tool : EngagementTool) (b : WakeSessionBrain) :
  clamped b -> clamped (markToolUsed tool b).
Proof.
  unfold clamped, markToolUsed, on_state; cbn [state].
  rewrite markToolUsed_frame. cbn. tauto.
Qed.

Lemma call_clamped (c : Call) (b : WakeSessionBrain) :
  clamped b -> clamped (call c b).
Proof.
  destruct c; cbn [call].
  - apply recordUserResponse_clamped.
  - apply recordSilence_clamped.
  - apply markToolUsed_clamped.
  - rewrite generateInstruction_state.
    destruct (getNextTool b); [apply markToolUsed_clamped | tauto].
  - unfold clamped, markComplete, on_state; cbn. tauto.
Qed.

Lemma call_not_mumbling (c : Call) (b : WakeSessionBrain) :
  responsiveness (state b) <> mumbling ->
  responsiveness (state (call c b)) <> mumbling.
Proof.
  intros Hb. destruct c; cbn [call].
  - unfold recordUserResponse, on_state; cbn [state].
    rewrite recordUserResponse_state_unfold.
    destruct (checkVoiceCommands_frame transcript (engaged transcript (state b)))
      as (_ & _ & _ & -> & _).
    cbn [engaged responsiveness]. rewrite classify_cases.
    destruct (isLazy transcript); [discriminate|].
    destruct (wordCount transcript <=? 6); discriminate.
  - unfold recordSilence, on_state; cbn [state].
    destruct (recordSilence_counters (state b)) as (_ & -> & _). discriminate.
  - unfold markToolUsed, on_state; cbn [state].
    rewrite markToolUsed_frame. exact Hb.
  - rewrite generateInstruction_state. destruct (getNextTool b); [|exact Hb].
    unfold markToolUsed, on_state; cbn [state].
    rewrite markToolUsed_frame. exact Hb.
  - exact Hb.
Qed.

(** C7.  Starting from a freshly created session, after every call of
    any finite sequence of calls the escalation level lies between 0 and
    4 and the silence count is not negative.  The sequence may hold
    [recordSilence] and [recordUserResponse] calls with any transcript,
    and the three other calls as well: they leave both counters alone. *)
Theorem counters_stay_clamped
    (persona : string) (prefs : Preferences) (ctx : Context) (now : Z)
    (cs : list Call) :
  Forall (fun b => 0 <= escalationLevel (state b) <= 4
                   /\ 0 <= silenceCount (state b))
         (observe cs (new_WakeSessionBrain persona prefs ctx now)).
Proof.
  apply (observe_invariant clamped).
  - exact call_clamped.
  - unfold clamped; cbn. lia.
Qed.

(** C10.  In every state reached from session creation by any sequence
    of [recordUserResponse], [recordSilence], [markToolUsed],
    [generateInstruction] and [markComplete] calls, the responsiveness
    is never [mumbling], although the level is declared. *)
Theorem mumbling_unreachable
    (persona : string) (prefs : Preferences) (ctx : Context) (now : Z)
    (cs : list Call) :
  Forall (fun b => responsiveness (state b) <> mumbling)
         (observe cs (new_WakeSessionBrain persona prefs ctx now)).
Proof.
  apply (observe_invariant (fun b => responsiveness (state b) <> mumbling)).
  - exact call_not_mumbling.
  - cbn. discriminate.
Qed.

(** C8.  A new [morning-coach] session stays in [brain_wakeup] with
    escalation level 0 through the first three silences, and the fourth
    one moves it to [soft_chat] with escalation level 1 and silence
    count 4. *)
Theorem four_silences_reach_soft_chat
    (prefs : Preferences) (ctx : Context) (now : Z) :
  let b0 := new_WakeSessionBrain "morning-coach" prefs ctx now in
  map (fun b => (phase (state b), escalationLevel (state b), silenceCount (state b)))
      (observe [RecordSilence; RecordSilence; RecordSilence; RecordSilence] b0)
  = [(brain_wakeup, 0, 0); (brain_wakeup, 0, 1); (brain_wakeup, 0, 2);
     (brain_wakeup, 0, 3); (soft_chat, 1, 4)].
Proof. reflexivity. Qed.

(* ================================================================== *)
(** ** Phase order *)
(* ================================================================== *)

Lemma recordUserResponse_phase (t : string) (b : WakeSessionBrain) :
  phase (state (recordUserResponse t b))
  = if says_awake t then verification else phase (engaged t (state b)).
Proof.
  unfold recordUserResponse, on_state; cbn [state].
  rewrite recordUserResponse_state_unfold. apply checkVoiceCommands_phase.
Qed.

Lemma engaged_phase_le (t : string) (s : WakeSessionState) :
  phase_le (phase s) (phase (engaged t s)).
Proof.
  unfold phase_le; cbn [engaged phase].
  destruct (isLazy t); [lia|].
  destruct (phase s); cbn -[Z.leb];
    repeat match goal with
           | |- context [if ?c then _ else _] => destruct c
           end; cbn; lia.
Qed.

Lemma markToolUsed_phase (tool : EngagementTool) (b : WakeSessionBrain) :
  phase (state (markToolUsed tool b)) = phase (state b).
Proof.
  unfold markToolUsed, on_state; cbn [state].
  rewrite markToolUsed_frame. reflexivity.
Qed.

Lemma call_brain_move (c : Call) (b : WakeSessionBrain) :
  brain_move (c, phase (state b), phase (state (call c b))).
Proof.
  unfold brain_move. destruct c; cbn [call wake_declaration].
  - rewrite recordUserResponse_phase.
    pose proof (engaged_phase_le transcript (state b)) as Hle.
    destruct (says_awake transcript).
    + split; [reflexivity|].
      unfold phase_le. destruct (phase (state b)); cbn; try (left; lia).
      right. repeat split.
    + split; [exact Hle | left; exact Hle].
  - pose proof (recordSilence_phase (state b)) as Hle.
    split; [exact Hle | left; exact Hle].
  - rewrite markToolUsed_phase. unfold phase_le. split; [lia | left; lia].
  - rewrite generateInstruction_state.
    destruct (getNextTool b); rewrite ?markToolUsed_phase;
      unfold phase_le; (split; [lia | left; lia]).
  - unfold phase_le; cbn. destruct (phase (state b)); cbn; (split; [lia | left; lia]).
Qed.

(** C1, as the specification words it, fails: once the session is
    complete, a wake declaration moves the phase back to
    [verification]. *)
Lemma wake_declaration_reopens_complete :
  steps [MarkComplete; RecordUserResponse "I'm awake"] fresh
  = [(MarkComplete, brain_wakeup, complete);
     (RecordUserResponse "I'm awake", complete, verification)]
  /\ ~ Forall claimed_move
         (steps [MarkComplete; RecordUserResponse "I'm awake"] fresh).
Proof.
  split; [reflexivity|].
  intros H. inversion H as [|m l _ H2]; subst.
  inversion H2 as [|m' l' Hm _]; subst.
  unfold claimed_move, phase_le, phase_lt in Hm. vm_compute in Hm.
  destruct Hm as [Hm | (_ & _ & Hm)];
    [apply Hm; reflexivity | discriminate Hm].
Qed.

(** C1, amended.  Along every sequence of calls on any brain, a call
    either leaves the phase where it is or moves it forward in the order
    brain_wakeup, soft_chat, encouragement, movement, verification,
    complete, except that an utterance holding one of the wake
    declarations sets the phase to [verification] from every phase; the
    only step back is therefore the one from [complete] to
    [verification] on such an utterance. *)
Theorem phase_moves_forward_or_to_verification
    (cs : list Call) (b : WakeSessionBrain) :
  Forall brain_move (steps cs b).
Proof.
  revert b. induction cs as [|c cs IH]; intros b; cbn [steps].
  - constructor.
  - constructor; [apply call_brain_move | apply IH].
Qed.

(* ================================================================== *)
(** ** Lazy acknowledgments *)
(* ================================================================== *)

(** C6.  When the transcript is classified [minimal] and holds no voice
    command, [recordUserResponse] adds one to [responseCount], takes two
    off [silenceCount] and one off [escalationLevel], both floored at 0,
    stores the transcript as [lastUserResponse], and leaves the phase
    (and every other field) as it was. *)
Theorem lazy_acknowledgment_effects (t : string) (b : WakeSessionBrain) :
  classify (isLazy t) (wordCount t) = minimal ->
  says_awake t = false ->
  says_skip_news t = false ->
  says_skip_weather t = false ->
  let s := state b in
  let s' := state (recordUserResponse t b) in
  responsiveness s' = minimal
  /\ responseCount s' = responseCount s + 1
  /\ silenceCount s' = Z.max 0 (silenceCount s - 2)
  /\ escalationLevel s' = Z.max 0 (escalationLevel s - 1)
  /\ lastUserResponse s' = Some t
  /\ phase s' = phase s
  /\ toolsUsed s' = toolsUsed s
  /\ toolsAvailable s' = toolsAvailable s
  /\ preferences s' = preferences s
  /\ context s' = context s
  /\ startTime s' = startTime s.
Proof.
  intros Hmin Hawake Hnews Hweather s s'.
  assert (Hlazy : isLazy t = true).
  { rewrite classify_cases in Hmin. destruct (isLazy t); [reflexivity|].
    destruct (wordCount t <=? 6); discriminate. }
  subst s s'. unfold recordUserResponse, on_state; cbn [state].
  rewrite recordUserResponse_state_unfold.
  destruct (checkVoiceCommands_frame t (engaged t (state b)))
    as (Hst & Htu & Hta & Hr & Hsc & Hrc & Hlu & Hel & Hcx).
  rewrite checkVoiceCommands_phase, checkVoiceCommands_preferences.
  rewrite Hst, Htu, Hta, Hr, Hsc, Hrc, Hlu, Hel, Hcx, Hawake, Hnews, Hweather.
  cbn [engaged responsiveness responseCount silenceCount escalationLevel
       lastUserResponse phase toolsUsed toolsAvailable preferences context
       startTime].
  rewrite Hlazy. cbn [classify].
  repeat split. destruct (preferences (state b)); reflexivity.
Qed.

(** Scenario C: a bare "Yes" in [soft_chat] with one response so far. *)
Lemma lazy_acknowledgment_effects_witness :
  let b := recordUserResponse "Good morning" fresh in
  (phase (state b) = soft_chat /\ responseCount (state b) = 1)
  /\ classify (isLazy "Yes") (wordCount "Yes") = minimal
  /\ phase (state (recordUserResponse "Yes" b)) = phase (state b)
  /\ responseCount (state (recordUserResponse "Yes" b)) = 2.
Proof.
  intros b.
  pose proof (lazy_acknowledgment_effects "Yes" b
                eq_refl eq_refl eq_refl eq_refl) as H.
  cbv zeta in H.
  destruct H as (_ & Hrc & _ & _ & _ & Hph & _).
  split; [split; reflexivity|].
  split; [reflexivity|].
  split; [exact Hph | exact Hrc].
Defined.

(* ================================================================== *)
(** ** Available tools and preferences *)
(* ================================================================== *)

(** C4, where the code departs from it.  A skip command turns the
    preference off and leaves [toolsAvailable] as it was at creation, so
    the tool stays available.  After "skip news" the news tool is still
    in [toolsAvailable].  After "skip weather" the weather tool is still
    in [toolsAvailable] and [getNextTool] proposes it at once, although
    its loop is meant to pass over what the preferences exclude; the
    instruction built in the same call reads the preference and no
    longer carries the weather. *)
Theorem skip_command_leaves_tool_available :
  let after_news := recordUserResponse "skip news" fresh in
  let after_weather := recordUserResponse "skip weather" fresh in
  (says_skip_news "skip news" = true
   /\ includeNews (preferences (state after_news)) = false
   /\ In news (toolsAvailable (state after_news)))
  /\ (says_skip_weather "skip weather" = true
      /\ includeWeather (preferences (state after_weather)) = false
      /\ In weather (toolsAvailable (state after_weather))
      /\ getNextTool after_weather = Some weather
      /\ nextApproach (fst (generateInstruction after_weather)) = Some weather
      /\ availableWeather (fst (generateInstruction fresh))
         = Some "68 and sunny"%string
      /\ availableWeather (fst (generateInstruction after_weather)) = None).
Proof.
  cbv zeta. split.
  - split; [reflexivity|]. split; [reflexivity|].
    change (toolsAvailable (state (recordUserResponse "skip news" fresh)))
      with (toolsAvailable (state fresh)).
    cbn; tauto.
  - split; [reflexivity|]. split; [reflexivity|]. split.
    + change (toolsAvailable (state (recordUserResponse "skip weather" fresh)))
        with (toolsAvailable (state fresh)).
      cbn; tauto.
    + repeat split; reflexivity.
Qed.

Lemma getAvailableTools_toggles (prefs : Preferences) :
  (In weather (getAvailableTools prefs) <-> includeWeather prefs = true)
  /\ (In calendar (getAvailableTools prefs) <-> includeCalendar prefs = true)
  /\ (In news (getAvailableTools prefs) <-> includeNews prefs = true)
  /\ incl [greeting; how_did_you_sleep; gratitude; plans_today;
           interesting_fact; gentle_story; body_awareness; breathing;
           direct_question; humor; coffee_mention; first_step_insight;
           accountability; guilt; challenge; sit_up_request;
           stand_up_request; walk_request; coffee_walk; movement_verify]
          (getAvailableTools prefs).
Proof.
  repeat split.
  1-6: destruct prefs as [[] [] [] []]; cbn; intros H;
    try reflexivity; try discriminate H; intuition discriminate.
  intros x Hx. unfold getAvailableTools.
  repeat match goal with
         | |- context [if ?c then _ else _] => destruct c
         end; repeat (apply in_or_app; left); exact Hx.
Qed.

(** C5, where the code departs from it: [gentle_story] is among the
    available tools of every session, also when [includeStories] is
    off, because the fixed list already holds it; the toggle only adds a
    second copy. *)
Theorem gentle_story_ignores_includeStories (prefs : Preferences) :
  In gentle_story (getAvailableTools prefs)
  /\ count_occ EngagementTool_eq_dec (getAvailableTools prefs) gentle_story
     = (if includeStories prefs then 2 else 1)%nat.
Proof.
  destruct prefs as [[] [] [] []]; cbn; (split; [tauto | reflexivity]).
Qed.

(* ================================================================== *)
(** ** Instructions consume the curated tools *)
(* ================================================================== *)

Lemma includes_tool_In (l : list EngagementTool) (t : EngagementTool) :
  includes_tool l t = true <-> In t l.
Proof.
  unfold includes_tool. destruct (in_dec EngagementTool_eq_dec t l);
    split; intros H; try assumption; try reflexivity; try discriminate.
  contradiction.
Qed.

Lemma includes_tool_app (l : list EngagementTool) (t x : EngagementTool) :
  includes_tool (l ++ [t]) x
  = includes_tool l x || (if EngagementTool_eq_dec t x then true else false).
Proof.
  apply eq_true_iff_eq. rewrite orb_true_iff, !includes_tool_In, in_app_iff.
  cbn. destruct (EngagementTool_eq_dec t x); intuition discriminate.
Qed.

Lemma find_head_filter {A} (f : A -> bool) (l : list A) :
  find f l = hd_error (filter f l).
Proof.
  induction l as [|a l IH]; cbn; [reflexivity|].
  destruct (f a); [reflexivity | exact IH].
Qed.

Lemma filter_drop_head (f : EngagementTool -> bool) (t : EngagementTool)
    (l rest : list EngagementTool) :
  NoDup l ->
  filter f l = t :: rest ->
  filter (fun x => f x && negb (if EngagementTool_eq_dec t x then true else false)) l
  = rest.
Proof.
  intros Hnd Hf.
  assert (Hrest : ~ In t rest).
  { pose proof (NoDup_filter f Hnd) as H. rewrite Hf in H.
    inversion H; assumption. }
  transitivity
    (filter (fun x => negb (if EngagementTool_eq_dec t x then true else false))
            (filter f l)).
  - clear. induction l as [|a l IH]; cbn; [reflexivity|].
    destruct (f a); cbn; [|exact IH].
    destruct (EngagementTool_eq_dec t a); cbn; [exact IH | f_equal; exact IH].
  - rewrite Hf. cbn. destruct (EngagementTool_eq_dec t t); [cbn | congruence].
    clear -Hrest. induction rest as [|a rest IH]; cbn; [reflexivity|].
    destruct (EngagementTool_eq_dec t a) as [->|]; cbn.
    + exfalso. apply Hrest. left. reflexivity.
    + f_equal. apply IH. intros H. apply Hrest. right. exact H.
Qed.

Lemma priority_NoDup (b : WakeSessionBrain) : NoDup (priority b).
Proof.
  unfold priority, TOOL_PRIORITY.
  destruct (String.eqb (personaId b) "zen-guide");
    [|destruct (String.eqb (personaId b) "morning-coach");
      [|destruct (String.eqb (personaId b) "strict-sergeant")]];
    destruct (phase (state b)); cbn;
    repeat (constructor; [cbn; intuition discriminate|]); constructor.
Qed.

Lemma priority_markToolUsed (tool : EngagementTool) (b : WakeSessionBrain) :
  priority (markToolUsed tool b) = priority b.
Proof.
  unfold priority. cbn [markToolUsed on_state personaId].
  rewrite markToolUsed_phase. reflexivity.
Qed.

(** With a curated tool still eligible, [getNextTool] hands out the
    first one. *)
Lemma getNextTool_curated (b : WakeSessionBrain) (t : EngagementTool)
    (rest : list EngagementTool) :
  curatedRemaining b = t :: rest -> getNextTool b = Some t.
Proof.
  unfold curatedRemaining, getNextTool, eligible. intros H.
  rewrite find_head_filter, H. reflexivity.
Qed.

Lemma curatedRemaining_head (b : WakeSessionBrain) (t : EngagementTool)
    (rest : list EngagementTool) :
  curatedRemaining b = t :: rest ->
  In t (priority b) /\ ~ In t (toolsUsed (state b))
  /\ In t (toolsAvailable (state b)).
Proof.
  intros H.
  assert (Hin : In t (curatedRemaining b)) by (rewrite H; left; reflexivity).
  unfold curatedRemaining in Hin. apply filter_In in Hin.
  destruct Hin as [Hp He]. unfold eligible in He.
  apply andb_true_iff in He. destruct He as [Hu Ha].
  split; [exact Hp|]. split.
  - intros Hused. apply includes_tool_In in Hused. rewrite Hused in Hu.
    discriminate.
  - apply includes_tool_In. exact Ha.
Qed.

Lemma generateInstruction_curated (b : WakeSessionBrain) (t : EngagementTool)
    (rest : list EngagementTool) :
  curatedRemaining b = t :: rest ->
  let b' := snd (generateInstruction b) in
  toolsUsed (state b') = toolsUsed (state b) ++ [t]
  /\ curatedRemaining b' = rest.
Proof.
  intros H. cbv zeta. rewrite generateInstruction_state.
  rewrite (getNextTool_curated b t rest H).
  destruct (curatedRemaining_head b t rest H) as (_ & Hused & _).
  assert (Hfalse : includes_tool (toolsUsed (state b)) t = false).
  { destruct (includes_tool (toolsUsed (state b)) t) eqn:E; [|reflexivity].
    apply includes_tool_In in E. contradiction. }
  assert (Hstate : state (markToolUsed t b)
                   = set_toolsUsed (toolsUsed (state b) ++ [t]) (state b)).
  { unfold markToolUsed, on_state; cbn [state].
    rewrite markToolUsed_frame, Hfalse. reflexivity. }
  split.
  - rewrite Hstate. reflexivity.
  - unfold curatedRemaining. rewrite priority_markToolUsed, Hstate.
    rewrite <- (filter_drop_head (eligible (state b)) t (priority b) rest
                  (priority_NoDup b) H).
    apply filter_ext. intros x. unfold eligible.
    cbn [set_toolsUsed toolsUsed toolsAvailable].
    rewrite includes_tool_app.
    destruct (includes_tool (toolsUsed (state b)) x),
             (includes_tool (toolsAvailable (state b)) x),
             (EngagementTool_eq_dec t x); reflexivity.
Qed.

Lemma generate_times_curated (n : nat) :
  forall b : WakeSessionBrain,
  (n <= List.length (curatedRemaining b))%nat ->
  toolsUsed (state (generate_times n b))
  = toolsUsed (state b) ++ firstn n (curatedRemaining b)
  /\ curatedRemaining (generate_times n b) = skipn n (curatedRemaining b).
Proof.
  induction n as [|n IH]; intros b Hn.
  - cbn. rewrite app_nil_r. split; reflexivity.
  - destruct (curatedRemaining b) as [|t rest] eqn:E; [cbn in Hn; lia|].
    destruct (generateInstruction_curated b t rest E) as [Hused Hrem].
    cbn [generate_times firstn skipn].
    destruct (IH (snd (generateInstruction b))) as [IHu IHr].
    { rewrite Hrem. cbn in Hn. lia. }
    rewrite IHu, IHr, Hused, Hrem, <- app_assoc. split; reflexivity.
Qed.

Lemma generateInstruction_frame (b : WakeSessionBrain) (t : EngagementTool) :
  getNextTool b = Some t ->
  snd (generateInstruction b)
  = on_state (set_toolsUsed
                (if includes_tool (toolsUsed (state b)) t
                 then toolsUsed (state b)
                 else toolsUsed (state b) ++ [t])) b.
Proof.
  intros H. rewrite generateInstruction_state, H.
  unfold markToolUsed, on_state. rewrite markToolUsed_frame. reflexivity.
Qed.

(** C9.  Where [getNextTool] yields a tool, [generateInstruction]
    changes nothing of the brain but [toolsUsed], to which it appends
    that tool unless it is there already.  Hence [n] calls in a row, for
    [n] up to the number of curated tools of the current phase that are
    still eligible, append exactly the first [n] of them, one per call
    and none of them used before, and leave the others as the eligible
    ones; after as many calls as there were eligible curated tools none
    is left. *)
Theorem generateInstruction_only_marks_tool
    (b : WakeSessionBrain) (t : EngagementTool) (n : nat) :
  getNextTool b = Some t ->
  (n <= List.length (curatedRemaining b))%nat ->
  let s := state b in
  let b' := snd (generateInstruction b) in
  let s' := state b' in
  (toolsUsed s' = (if includes_tool (toolsUsed s) t then toolsUsed s
                   else toolsUsed s ++ [t])
   /\ phase s' = phase s /\ silenceCount s' = silenceCount s
   /\ responseCount s' = responseCount s
   /\ escalationLevel s' = escalationLevel s
   /\ responsiveness s' = responsiveness s
   /\ lastUserResponse s' = lastUserResponse s
   /\ preferences s' = preferences s
   /\ toolsAvailable s' = toolsAvailable s
   /\ context s' = context s /\ startTime s' = startTime s
   /\ personaId b' = personaId b)
  /\ (toolsUsed (state (generate_times n b))
      = toolsUsed s ++ firstn n (curatedRemaining b)
      /\ curatedRemaining (generate_times n b) = skipn n (curatedRemaining b)
      /\ incl (curatedRemaining b) (priority b)
      /\ (forall u, In u (curatedRemaining b) -> ~ In u (toolsUsed s))
      /\ curatedRemaining
           (generate_times (List.length (curatedRemaining b)) b) = []).
Proof.
  intros Hnext Hn. cbv zeta. split.
  - rewrite (generateInstruction_frame b t Hnext). cbn. repeat split.
  - destruct (generate_times_curated n b Hn) as [Hu Hr].
    split; [exact Hu|]. split; [exact Hr|]. split; [|split].
    + intros u Hu'. unfold curatedRemaining in Hu'.
      apply filter_In in Hu'. tauto.
    + intros u Hu' Hused. unfold curatedRemaining in Hu'.
      apply filter_In in Hu'. destruct Hu' as [_ He]. unfold eligible in He.
      apply includes_tool_In in Hused. rewrite Hused in He. discriminate.
    + destruct (generate_times_curated (List.length (curatedRemaining b)) b
                  (Nat.le_refl _)) as [_ Hr'].
      rewrite Hr'. apply skipn_all.
Qed.

(** A new [morning-coach] session with news on: four instructions use
    up the four curated tools of [brain_wakeup]. *)
Lemma generateInstruction_only_marks_tool_witness :
  getNextTool fresh = Some greeting
  /\ (4 <= List.length (curatedRemaining fresh))%nat
  /\ toolsUsed (state (snd (generateInstruction fresh))) = [greeting]
  /\ toolsUsed (state (generate_times 4 fresh))
     = [greeting; how_did_you_sleep; interesting_fact; news]
  /\ curatedRemaining (generate_times 4 fresh) = [].
Proof.
  assert (H1 : getNextTool fresh = Some greeting) by reflexivity.
  assert (H2 : (4 <= List.length (curatedRemaining fresh))%nat)
    by (vm_compute; lia).
  pose proof (generateInstruction_only_marks_tool fresh greeting 4 H1 H2) as H.
  cbv zeta in H.
  destruct H as ((Hused & _) & (Hn & Hrem & _)).
  split; [exact H1|]. split; [exact H2|].
  split; [exact Hused|]. split; [exact Hn | exact Hrem].
Defined.

(* ================================================================== *)
(** ** Tool selection *)
(* ================================================================== *)

Lemma eligible_false_iff (s : WakeSessionState) (u : EngagementTool) :
  eligible s u = false <-> passed_over s u.
Proof.
  unfold eligible, passed_over, includes_tool.
  destruct (in_dec EngagementTool_eq_dec u (toolsUsed s)),
           (in_dec EngagementTool_eq_dec u (toolsAvailable s));
    cbn; split; intros H; try reflexivity; try discriminate H; tauto.
Qed.

Lemma find_first {A} (f : A -> bool) (before : list A) (t : A) (after : list A) :
  (forall u, In u before -> f u = false) ->
  f t = true ->
  find f (before ++ t :: after) = Some t.
Proof.
  induction before as [|a l IH]; intros Hb Ht; cbn.
  - rewrite Ht. reflexivity.
  - rewrite (Hb a (or_introl eq_refl)). apply IH; [|exact Ht].
    intros u Hu. apply Hb. right. exact Hu.
Qed.

Lemma find_nothing {A} (f : A -> bool) (l : list A) :
  (forall u, In u l -> f u = false) -> find f l = None.
Proof.
  induction l as [|a l IH]; intros H; cbn; [reflexivity|].
  rewrite (H a (or_introl eq_refl)). apply IH.
  intros u Hu. apply H. right. exact Hu.
Qed.

(** For a silence count that is not negative, indexing by the remainder
    is the rotation, and it finds an element in every non-empty list. *)
Lemma at_index_rotate (l : list EngagementTool) (n : Z) :
  0 <= n -> l <> [] ->
  Js.at_index l (Js.remainder n (Z.of_nat (List.length l))) = rotate l n
  /\ rotate l n <> None.
Proof.
  intros Hn Hl.
  assert (Hlen : 0 < Z.of_nat (List.length l)).
  { destruct l; [congruence | cbn [List.length]; lia]. }
  unfold Js.at_index, Js.remainder, rotate.
  rewrite Z.rem_mod_nonneg by lia.
  pose proof (Z.mod_pos_bound n _ Hlen) as Hb.
  destruct (Z.ltb_spec (n mod Z.of_nat (List.length l)) 0); [lia|].
  split; [reflexivity|].
  apply nth_error_Some. lia.
Qed.

Lemma repeatableTools_nonempty (b : WakeSessionBrain) : repeatableTools b <> [].
Proof.
  unfold repeatableTools.
  destruct (phase_eqb _ _); [discriminate|].
  destruct (String.eqb _ _); discriminate.
Qed.

Lemma getNextTool_fallback (b : WakeSessionBrain) :
  0 <= silenceCount (state b) ->
  find (eligible (state b)) (priority b) = None ->
  getNextTool b
  = match restricted_pool b with
    | [] => rotate (repeatableTools b) (silenceCount (state b))
    | _ :: _ => rotate (restricted_pool b) (silenceCount (state b))
    end.
Proof.
  intros Hn Hfind. unfold getNextTool.
  change (fun tool => negb (includes_tool (toolsUsed (state b)) tool)
                      && includes_tool (toolsAvailable (state b)) tool)
    with (eligible (state b)).
  rewrite Hfind. fold (restricted_pool b).
  destruct (restricted_pool b) as [|r rs] eqn:E.
  - cbn [List.length Z.of_nat Z.ltb Z.compare].
    destruct (repeatableTools b) as [|p ps] eqn:Ep.
    + unfold rotate. cbn. destruct (Z.to_nat _); reflexivity.
    + replace (0 <? Z.of_nat (List.length (p :: ps))) with true
        by (symmetry; apply Z.ltb_lt; cbn [List.length]; lia).
      apply at_index_rotate; [exact Hn | discriminate].
  - replace (0 <? Z.of_nat (List.length (r :: rs))) with true
      by (symmetry; apply Z.ltb_lt; cbn [List.length]; lia).
    apply at_index_rotate; [exact Hn | discriminate].
Qed.

(** The selection rule on any brain whose silence count is not
    negative. *)
Lemma selection_rule_at (b : WakeSessionBrain) :
  0 <= silenceCount (state b) ->
  let s := state b in
  (priority b
   = match TOOL_PRIORITY (personaId b) (phase s) with
     | Some l => l
     | None => morning_coach_priority (phase s)
     end)
  /\ (repeatableTools b
      = match phase s with
        | movement => movementRepeatables
        | _ => if String.eqb (personaId b) "zen-guide"
               then zenRepeatables else generalRepeatables
        end)
  /\ (forall before t after,
        priority b = before ++ t :: after ->
        (forall u, In u before -> passed_over s u) ->
        ~ In t (toolsUsed s) -> In t (toolsAvailable s) ->
        getNextTool b = Some t)
  /\ ((forall u, In u (priority b) -> passed_over s u) ->
      getNextTool b
      = match restricted_pool b with
        | [] => rotate (repeatableTools b) (silenceCount s)
        | _ :: _ => rotate (restricted_pool b) (silenceCount s)
        end)
  /\ (getNextTool b = None -> repeatableTools b = [])
  /\ (repeatableTools b <> [] -> getNextTool b <> None)
  /\ getNextTool b <> None.
Proof.
  intros Hn s.
  assert (Hsome : getNextTool b <> None).
  { destruct (find (eligible (state b)) (priority b)) as [t|] eqn:Hfind.
    - unfold getNextTool.
      change (fun tool => negb (includes_tool (toolsUsed (state b)) tool)
                          && includes_tool (toolsAvailable (state b)) tool)
        with (eligible (state b)).
      rewrite Hfind. discriminate.
    - rewrite (getNextTool_fallback b Hn Hfind).
      destruct (restricted_pool b) as [|r rs] eqn:E.
      + apply (at_index_rotate _ _ Hn (repeatableTools_nonempty b)).
      + apply (at_index_rotate (r :: rs) _ Hn). discriminate. }
  split; [|split; [|split; [|split; [|split; [|split]]]]].
  - unfold priority. destruct (TOOL_PRIORITY (personaId b) _); reflexivity.
  - unfold repeatableTools, phase_eqb. subst s.
    destruct (phase (state b)); reflexivity.
  - intros before t after Hp Hbefore Hunused Havail.
    unfold getNextTool.
    change (fun tool => negb (includes_tool (toolsUsed (state b)) tool)
                        && includes_tool (toolsAvailable (state b)) tool)
      with (eligible (state b)).
    rewrite Hp, find_first; [reflexivity | |].
    + intros u Hu. apply eligible_false_iff, Hbefore, Hu.
    + unfold eligible. apply andb_true_iff. split.
      * apply negb_true_iff, not_true_iff_false.
        intros H. apply Hunused, includes_tool_In, H.
      * apply includes_tool_In, Havail.
  - intros Hall. apply getNextTool_fallback; [exact Hn|].
    apply find_nothing. intros u Hu. apply eligible_false_iff, Hall, Hu.
  - intros Hnone. contradiction.
  - intros _. exact Hsome.
  - exact Hsome.
Qed.

Lemma run_invariant (P : WakeSessionBrain -> Prop) :
  (forall c b, P b -> P (call c b)) ->
  forall cs b, P b -> P (run cs b).
Proof.
  intros Hstep cs. unfold run.
  induction cs as [|c cs IH]; intros b Hb; cbn [fold_left].
  - exact Hb.
  - apply IH, Hstep, Hb.
Qed.

(** C3.  [getNextTool] in any state of any session.  The curated list
    is the one of the persona's table for the current phase, or of the
    [morning-coach] table when the persona has none.  The first curated
    tool that is neither used nor unavailable is returned.  When every
    curated tool is passed over, the result is element
    [silenceCount mod L] of the applicable repeatable pool (movement
    pool in phase [movement], zen pool for [zen-guide], general pool
    otherwise) restricted to the curated tools if that restriction is
    not empty, and of the whole pool otherwise.  The result is none only
    for an empty pool, never for a non-empty one; and no pool is
    empty. *)
Theorem getNextTool_selection
    (persona : string) (prefs : Preferences) (ctx : Context) (now : Z)
    (cs : list Call) :
  let b := run cs (new_WakeSessionBrain persona prefs ctx now) in
  let s := state b in
  (priority b
   = match TOOL_PRIORITY (personaId b) (phase s) with
     | Some l => l
     | None => morning_coach_priority (phase s)
     end)
  /\ (repeatableTools b
      = match phase s with
        | movement => movementRepeatables
        | _ => if String.eqb (personaId b) "zen-guide"
               then zenRepeatables else generalRepeatables
        end)
  /\ (forall before t after,
        priority b = before ++ t :: after ->
        (forall u, In u before -> passed_over s u) ->
        ~ In t (toolsUsed s) -> In t (toolsAvailable s) ->
        getNextTool b = Some t)
  /\ ((forall u, In u (priority b) -> passed_over s u) ->
      getNextTool b
      = match restricted_pool b with
        | [] => rotate (repeatableTools b) (silenceCount s)
        | _ :: _ => rotate (restricted_pool b) (silenceCount s)
        end)
  /\ (getNextTool b = None -> repeatableTools b = [])
  /\ (repeatableTools b <> [] -> getNextTool b <> None)
  /\ getNextTool b <> None.
Proof.
  intros b. apply selection_rule_at.
  apply (run_invariant clamped call_clamped cs).
  unfold clamped; cbn. lia.
Qed.

(** After the four curated tools of [brain_wakeup] are used, the
    selector rotates through the restricted general pool, which holds
    [interesting_fact] only. *)
Lemma getNextTool_selection_witness :
  let used_up := run (repeat GenerateInstruction 4) fresh in
  restricted_pool used_up = [interesting_fact]
  /\ getNextTool used_up = Some interesting_fact
  /\ getNextTool fresh = Some greeting.
Proof.
  pose proof (getNextTool_selection "morning-coach" sample_preferences
                sample_context 0 (repeat GenerateInstruction 4)) as H.
  pose proof (getNextTool_selection "morning-coach" sample_preferences
                sample_context 0 []) as H'.
  cbv zeta in H, H'.
  destruct H as (_ & _ & _ & Hrot & _).
  destruct H' as (_ & _ & Hfirst & _).
  cbv zeta. split; [reflexivity|]. split.
  - unfold fresh. rewrite Hrot; [reflexivity|].
    intros u Hu. left. vm_compute in Hu. vm_compute. tauto.
  - apply (Hfirst [] greeting [how_did_you_sleep; interesting_fact; news]).
    + reflexivity.
    + intros u [].
    + intros [].
    + vm_compute. tauto.
Defined.

(* ================================================================== *)
(** ** Classification of utterances *)
(* ================================================================== *)

Lemma all_ascii_complete (c : ascii) : In c all_ascii.
Proof.
  unfold all_ascii. rewrite <- (ascii_nat_embedding c).
  apply in_map, in_seq. pose proof (nat_ascii_bounded c). lia.
Qed.

(** On lower-cased text the [i] flag changes nothing for a pattern
    character. *)
Lemma canonicalize_lower_char (c p : ascii) :
  pattern_char p = true ->
  Ascii.eqb (Js.canonicalize (Js.lower_char c)) (Js.canonicalize p)
  = Ascii.eqb (Js.lower_char c) p.
Proof.
  assert (Hall :
    forallb (fun c =>
      forallb (fun p =>
        implb (pattern_char p)
          (Bool.eqb
             (Ascii.eqb (Js.canonicalize (Js.lower_char c)) (Js.canonicalize p))
             (Ascii.eqb (Js.lower_char c) p)))
        all_ascii) all_ascii = true) by (vm_compute; reflexivity).
  intros Hp.
  rewrite forallb_forall in Hall. specialize (Hall c (all_ascii_complete c)).
  rewrite forallb_forall in Hall. specialize (Hall p (all_ascii_complete p)).
  rewrite Hp in Hall. cbn [implb] in Hall.
  apply eqb_prop. exact Hall.
Qed.

Lemma ci_eqb_lower (tok : string) :
  string_forall pattern_char tok = true ->
  forall x, Js.ci_eqb (Js.toLowerCase x) tok = String.eqb (Js.toLowerCase x) tok.
Proof.
  induction tok as [|p tok IH]; intros Htok x.
  - destruct x; reflexivity.
  - cbn in Htok. apply andb_true_iff in Htok. destruct Htok as [Hp Htok].
    destruct x as [|c x]; [reflexivity|].
    cbn [Js.toLowerCase Js.ci_eqb String.eqb].
    rewrite (canonicalize_lower_char c p Hp), (IH Htok).
    destruct (Ascii.eqb (Js.lower_char c) p); reflexivity.
Qed.

Lemma existsb_pointwise {A} (f g : A -> bool) (l : list A) :
  Forall (fun a => f a = g a) l -> existsb f l = existsb g l.
Proof.
  induction 1 as [|a l Ha _ IH]; cbn; [reflexivity|].
  rewrite Ha, IH. reflexivity.
Qed.

Lemma test_lower (re : Js.AnchoredAlternation) (x : string) :
  forallb (fun a => string_forall pattern_char (a ++ ".")) (Js.alternatives re)
  = true ->
  Js.test re (Js.toLowerCase x)
  = existsb (fun tok => String.eqb (Js.toLowerCase x) tok
                        || String.eqb (Js.toLowerCase x) (tok ++ "."))
            (Js.alternatives re).
Proof.
  intros H. unfold Js.test. apply existsb_pointwise.
  rewrite forallb_forall in H. apply Forall_forall. intros a Ha.
  specialize (H a Ha).
  assert (Ha' : string_forall pattern_char a = true).
  { clear -H. induction a as [|c a IH]; [reflexivity|].
    cbn in H |- *. apply andb_true_iff in H. destruct H as [Hc H].
    rewrite Hc, (IH H). reflexivity. }
  rewrite (ci_eqb_lower a Ha'), (ci_eqb_lower (a ++ ".") H). reflexivity.
Qed.

(** The pattern test of the code is the membership that the
    specification describes. *)
Lemma isLazy_lazy_acknowledgment (t : string) :
  isLazy t = spec_lazy_acknowledgment (Js.toLowerCase (Js.trim t)).
Proof.
  unfold isLazy, lazyPatterns, spec_lazy_acknowledgment.
  cbn [existsb]. rewrite !test_lower by reflexivity.
  rewrite orb_false_r, <- existsb_app. reflexivity.
Qed.

Lemma words_from_trimStart (s : string) :
  words_from false (Js.trimStart s) = words_from false s.
Proof.
  induction s as [|c r IH]; [reflexivity|].
  cbn [Js.trimStart]. destruct (Js.is_space c) eqn:E.
  - rewrite IH. cbn [words_from]. rewrite E. reflexivity.
  - reflexivity.
Qed.

Lemma words_from_trimEnd (s : string) :
  forall w, words_from w (Js.trimEnd s) = words_from w s.
Proof.
  induction s as [|c r IH]; intros w; [reflexivity|].
  cbn [Js.trimEnd]. destruct (Js.trimEnd r) as [|a r'] eqn:E.
  - destruct (Js.is_space c) eqn:Ec; cbn [words_from]; rewrite Ec.
    + rewrite <- IH. reflexivity.
    + rewrite <- IH. reflexivity.
  - cbn [words_from]. destruct (Js.is_space c) eqn:Ec.
    + rewrite <- (IH false). reflexivity.
    + rewrite <- (IH true). reflexivity.
Qed.

Lemma ends_in_space_trimEnd (s : string) :
  forall w,
  ends_in_space w (Js.trimEnd s)
  = match Js.trimEnd s with EmptyString => w | String _ _ => false end.
Proof.
  induction s as [|c r IH]; intros w; [reflexivity|].
  cbn [Js.trimEnd]. destruct (Js.trimEnd r) as [|a r'] eqn:E.
  - destruct (Js.is_space c) eqn:Ec; cbn [ends_in_space]; [reflexivity | exact Ec].
  - cbn [ends_in_space]. specialize (IH (Js.is_space c)).
    cbn [ends_in_space] in IH. exact IH.
Qed.

(** Pieces of a split against words: every piece but the last ends at
    the start of a separator, every word but possibly the first starts
    at the end of one. *)
Lemma split_from_words (s : string) :
  forall cur w,
  (List.length (Js.split_from cur w s) + (if w then 1 else 0)
   = words_from (negb w) s + 1 + (if ends_in_space w s then 1 else 0))%nat.
Proof.
  induction s as [|c r IH]; intros cur w.
  - cbn. destruct w; lia.
  - cbn [Js.split_from words_from ends_in_space].
    destruct (Js.is_space c) eqn:Ec.
    + destruct w; cbn [negb List.length].
      * apply (IH cur true).
      * pose proof (IH EmptyString true) as H. cbn [negb] in H. lia.
    + pose proof (IH (cur ++ String c EmptyString)%string false) as H.
      cbn [negb] in H. destruct w; cbn [negb]; lia.
Qed.

Lemma trim_not_blank (t : string) :
  all_space t = false ->
  exists c r, Js.trim t = String c r /\ Js.is_space c = false.
Proof.
  unfold Js.trim. induction t as [|c r IH]; intros H; [discriminate|].
  cbn [all_space] in H. cbn [Js.trimStart].
  destruct (Js.is_space c) eqn:Ec.
  - apply IH. exact H.
  - cbn [Js.trimEnd]. destruct (Js.trimEnd r) as [|a r'].
    + rewrite Ec. exists c, EmptyString. split; [reflexivity | exact Ec].
    + exists c, (String a r'). split; [reflexivity | exact Ec].
Qed.

(** The length of the split of the trimmed transcript is the number of
    words of the transcript. *)
Lemma wordCount_count_words (t : string) :
  all_space t = false -> wordCount t = Z.of_nat (spec_word_count t).
Proof.
  intros H. unfold wordCount, spec_word_count, Js.split_ws. f_equal.
  destruct (trim_not_blank t H) as (c & r & Htrim & Hc).
  pose proof (split_from_words (Js.trim t) EmptyString false) as Hs.
  cbn [negb] in Hs.
  assert (Hend : ends_in_space false (Js.trim t) = false).
  { unfold Js.trim. rewrite ends_in_space_trimEnd.
    destruct (Js.trimEnd _); reflexivity. }
  rewrite Hend in Hs.
  assert (Hw : (words_from false (Js.trim t) = words_from true (Js.trim t) + 1)%nat).
  { rewrite Htrim. cbn [words_from]. rewrite Hc. lia. }
  assert (Ht : words_from false (Js.trim t) = words_from false t).
  { unfold Js.trim. rewrite words_from_trimEnd. apply words_from_trimStart. }
  lia.
Qed.

Lemma recordUserResponse_responsiveness (t : string) (b : WakeSessionBrain) :
  responsiveness (state (recordUserResponse t b))
  = classify (isLazy t) (wordCount t).
Proof.
  unfold recordUserResponse, on_state; cbn [state].
  rewrite recordUserResponse_state_unfold.
  destruct (checkVoiceCommands_frame t (engaged t (state b)))
    as (_ & _ & _ & -> & _).
  reflexivity.
Qed.

(** C2, as the specification words it, fails: a lazy token with a
    trailing punctuation mark other than one period is not matched by
    the patterns.  "Ok!" is classified [conversing], not [minimal], and
    moves a new session on to [soft_chat]. *)
Lemma lazy_token_with_exclamation_mark :
  all_space "Ok!" = false
  /\ claimed_lazy_acknowledgment (Js.toLowerCase (Js.trim "Ok!")) = true
  /\ responsiveness (state (recordUserResponse "Ok!" fresh)) = conversing
  /\ phase (state (recordUserResponse "Ok!" fresh)) = soft_chat
  /\ responsiveness (state (recordUserResponse "Ok!" fresh))
     <> (if claimed_lazy_acknowledgment (Js.toLowerCase (Js.trim "Ok!"))
         then minimal
         else if (spec_word_count "Ok!" <=? 6)%nat then conversing
         else alert).
Proof.
  split; [reflexivity|]. split; [reflexivity|]. split; [reflexivity|].
  split; [reflexivity|]. vm_compute. discriminate.
Qed.

(** C2, amended.  For a transcript that holds more than whitespace,
    [recordUserResponse] sets the responsiveness to [minimal] when the
    trimmed, lower-cased transcript is one of the lazy tokens, alone or
    followed by exactly one period (no other trailing punctuation);
    otherwise to [conversing] when the transcript has at most six
    whitespace-separated words; otherwise to [alert]. *)
Theorem responsiveness_classification (t : string) (b : WakeSessionBrain) :
  all_space t = false ->
  responsiveness (state (recordUserResponse t b))
  = if spec_lazy_acknowledgment (Js.toLowerCase (Js.trim t)) then minimal
    else if (spec_word_count t <=? 6)%nat then conversing
    else alert.
Proof.
  intros H.
  rewrite recordUserResponse_responsiveness, classify_cases.
  rewrite isLazy_lazy_acknowledgment, (wordCount_count_words t H).
  destruct (spec_lazy_acknowledgment _); [reflexivity|].
  destruct (Z.leb_spec (Z.of_nat (spec_word_count t)) 6),
           (Nat.leb_spec (spec_word_count t) 6); try reflexivity; lia.
Qed.

(** Scenario B, a lazy "Yeah." and a long sentence. *)
Lemma responsiveness_classification_witness :
  all_space "Good morning, I slept okay" = false
  /\ responsiveness (state (recordUserResponse "Good morning, I slept okay" fresh))
     = conversing
  /\ responsiveness (state (recordUserResponse " Yeah. " fresh)) = minimal
  /\ responsiveness
       (state (recordUserResponse "I think I could sleep a bit more" fresh))
     = alert.
Proof.
  split; [reflexivity|].
  split; [|split].
  - rewrite (responsiveness_classification "Good morning, I slept okay" fresh eq_refl).
    reflexivity.
  - rewrite (responsiveness_classification " Yeah. " fresh eq_refl).
    reflexivity.
  - rewrite (responsiveness_classification "I think I could sleep a bit more"
               fresh eq_refl).
    reflexivity.
Defined.

(* ================================================================== *)
(** ** Each call, field by field *)
(* ================================================================== *)

Lemma recordUserResponse_fields (t : string) (b : WakeSessionBrain) :
  let s := state b in
  let s' := state (recordUserResponse t b) in
  toolsUsed s' = toolsUsed s
  /\ toolsAvailable s' = toolsAvailable s
  /\ responseCount s' = responseCount s + 1
  /\ lastUserResponse s' = Some t
  /\ silenceCount s' = (if isLazy t then Z.max 0 (silenceCount s - 2) else 0)
  /\ escalationLevel s' = Z.max 0 (escalationLevel s - 1)
  /\ context s' = context s.
Proof.
  cbv zeta. unfold recordUserResponse, on_state; cbn [state].
  rewrite recordUserResponse_state_unfold.
  destruct (checkVoiceCommands_frame t (engaged t (state b)))
    as (_ & -> & -> & _ & -> & -> & -> & -> & ->).
  cbn. repeat split.
Qed.

Lemma recordSilence_fields (b : WakeSessionBrain) :
  let s := state b in
  let s' := state (recordSilence b) in
  lastUserResponse s' = lastUserResponse s /\ context s' = context s.
Proof.
  cbv zeta. unfold recordSilence, on_state; cbn [state].
  destruct (state b) as [ph st tu ta r sc rc lu el pr cx].
  unfold recordSilence_state; cbn -[Z.leb Z.min Z.add].
  destruct ph; cbn -[Z.leb Z.min Z.add];
    repeat match goal with
           | |- context [if ?c then _ else _] => destruct c
           end; cbn; split; reflexivity.
Qed.

Lemma markToolUsed_state_eq (tool : EngagementTool) (b : WakeSessionBrain) :
  state (markToolUsed tool b)
  = set_toolsUsed (if includes_tool (toolsUsed (state b)) tool
                   then toolsUsed (state b)
                   else toolsUsed (state b) ++ [tool]) (state b).
Proof.
  unfold markToolUsed, on_state; cbn [state]. apply markToolUsed_frame.
Qed.

(** A call leaves [toolsUsed] as it is or appends one tool that was not
    in it. *)
Lemma call_toolsUsed (c : Call) (b : WakeSessionBrain) :
  toolsUsed (state (call c b)) = toolsUsed (state b)
  \/ exists t, ~ In t (toolsUsed (state b))
               /\ toolsUsed (state (call c b)) = toolsUsed (state b) ++ [t].
Proof.
  assert (Hmark : forall tool,
    toolsUsed (state (markToolUsed tool b)) = toolsUsed (state b)
    \/ exists t, ~ In t (toolsUsed (state b))
                 /\ toolsUsed (state (markToolUsed tool b))
                    = toolsUsed (state b) ++ [t]).
  { intros tool. rewrite markToolUsed_state_eq. cbn [set_toolsUsed toolsUsed].
    destruct (includes_tool (toolsUsed (state b)) tool) eqn:E.
    - left. reflexivity.
    - right. exists tool. split; [|reflexivity].
      intros H. apply includes_tool_In in H. congruence. }
  destruct c; cbn [call].
  - left. apply recordUserResponse_fields.
  - left. apply recordSilence_counters.
  - apply Hmark.
  - rewrite generateInstruction_state.
    destruct (getNextTool b); [apply Hmark | left; reflexivity].
  - left. reflexivity.
Qed.

Lemma call_toolsAvailable (c : Call) (b : WakeSessionBrain) :
  toolsAvailable (state (call c b)) = toolsAvailable (state b).
Proof.
  destruct c; cbn [call].
  - apply recordUserResponse_fields.
  - apply recordSilence_counters.
  - rewrite markToolUsed_state_eq. reflexivity.
  - rewrite generateInstruction_state.
    destruct (getNextTool b); [rewrite markToolUsed_state_eq|]; reflexivity.
  - reflexivity.
Qed.

Lemma call_responseCount (c : Call) (b : WakeSessionBrain) :
  responseCount (state (call c b))
  = responseCount (state b) + (if is_utterance c then 1 else 0).
Proof.
  destruct c; cbn [call is_utterance].
  - apply recordUserResponse_fields.
  - destruct (recordSilence_counters (state b)) as (_ & _ & _ & _ & _ & H).
    unfold recordSilence, on_state; cbn [state]. rewrite H. lia.
  - rewrite markToolUsed_state_eq. cbn. lia.
  - rewrite generateInstruction_state.
    destruct (getNextTool b); [rewrite markToolUsed_state_eq|]; cbn; lia.
  - cbn. lia.
Qed.

Lemma call_lastUserResponse (c : Call) (b : WakeSessionBrain) :
  lastUserResponse (state (call c b))
  = match c with
    | RecordUserResponse t => Some t
    | _ => lastUserResponse (state b)
    end.
Proof.
  destruct c; cbn [call].
  - apply recordUserResponse_fields.
  - apply recordSilence_fields.
  - rewrite markToolUsed_state_eq. reflexivity.
  - rewrite generateInstruction_state.
    destruct (getNextTool b); [rewrite markToolUsed_state_eq|]; reflexivity.
  - reflexivity.
Qed.

Lemma call_silenceCount (c : Call) (b : WakeSessionBrain) :
  0 <= silenceCount (state b) ->
  silenceCount (state (call c b))
  <= silenceCount (state b) + (if is_silence c then 1 else 0).
Proof.
  intros H0. destruct c; cbn [call is_silence].
  - destruct (recordUserResponse_fields transcript b)
      as (_ & _ & _ & _ & -> & _).
    destruct (isLazy transcript); lia.
  - destruct (recordSilence_counters (state b)) as (H & _).
    unfold recordSilence, on_state; cbn [state]. rewrite H. lia.
  - rewrite markToolUsed_state_eq. cbn. lia.
  - rewrite generateInstruction_state.
    destruct (getNextTool b); [rewrite markToolUsed_state_eq|]; cbn; lia.
  - cbn. lia.
Qed.

(** A property kept by the calls that pass a test holds all along a
    session made of such calls. *)
Lemma observe_invariant_on (P : WakeSessionBrain -> Prop) (ok : Call -> bool) :
  (forall c b, ok c = true -> P b -> P (call c b)) ->
  forall cs b, forallb ok cs = true -> P b -> Forall P (observe cs b).
Proof.
  intros Hstep cs. induction cs as [|c cs IH]; intros b Hok Hb; cbn.
  - constructor; [assumption | constructor].
  - cbn in Hok. apply andb_true_iff in Hok. destruct Hok as [Hc Hcs].
    constructor; [assumption|]. apply IH; [exact Hcs|]. apply Hstep; assumption.
Qed.

Lemma run_cons (c : Call) (cs : list Call) (b : WakeSessionBrain) :
  run (c :: cs) b = run cs (call c b).
Proof. reflexivity. Qed.

Lemma run_app (cs1 cs2 : list Call) (b : WakeSessionBrain) :
  run (cs1 ++ cs2) b = run cs2 (run cs1 b).
Proof. unfold run. apply fold_left_app. Qed.

(* ================================================================== *)
(** ** Tools used *)
(* ================================================================== *)

(** X1.  [toolsUsed] never holds a tool twice, in any state of any
    session. *)
Theorem toolsUsed_never_repeats
    (persona : string) (prefs : Preferences) (ctx : Context) (now : Z)
    (cs : list Call) :
  Forall (fun b => NoDup (toolsUsed (state b)))
         (observe cs (new_WakeSessionBrain persona prefs ctx now)).
Proof.
  apply (observe_invariant (fun b => NoDup (toolsUsed (state b)))).
  - intros c b Hb.
    destruct (call_toolsUsed c b) as [-> | (t & Ht & ->)]; [exact Hb|].
    apply NoDup_app; [exact Hb | repeat constructor; intros [] |].
    intros x Hx Hx'. cbn in Hx'. destruct Hx' as [<- | []]. contradiction.
  - cbn. constructor.
Qed.

(** X2.  [markToolUsed] is an idempotent add at the end: a second call
    with the same tool changes nothing, the tool is in the list after
    the first one, the earlier entries keep their places, and the tool
    occurs once if it was absent and as often as before otherwise. *)
Theorem markToolUsed_idempotent (tool : EngagementTool) (b : WakeSessionBrain) :
  markToolUsed tool (markToolUsed tool b) = markToolUsed tool b
  /\ In tool (toolsUsed (state (markToolUsed tool b)))
  /\ (exists rest,
        toolsUsed (state (markToolUsed tool b)) = toolsUsed (state b) ++ rest)
  /\ count_occ EngagementTool_eq_dec (toolsUsed (state (markToolUsed tool b))) tool
     = Nat.max 1 (count_occ EngagementTool_eq_dec (toolsUsed (state b)) tool).
Proof.
  assert (Hin : In tool (toolsUsed (state (markToolUsed tool b)))).
  { rewrite markToolUsed_state_eq. cbn [set_toolsUsed toolsUsed].
    destruct (includes_tool (toolsUsed (state b)) tool) eqn:E.
    - apply includes_tool_In, E.
    - apply in_or_app. right. left. reflexivity. }
  split; [|split; [exact Hin|split]].
  - unfold markToolUsed at 1. unfold on_state.
    rewrite markToolUsed_frame.
    apply includes_tool_In in Hin. rewrite Hin.
    destruct (markToolUsed tool b) as [s p]. destruct s. reflexivity.
  - rewrite markToolUsed_state_eq. cbn [set_toolsUsed toolsUsed].
    destruct (includes_tool (toolsUsed (state b)) tool).
    + exists []. rewrite app_nil_r. reflexivity.
    + exists [tool]. reflexivity.
  - rewrite markToolUsed_state_eq. cbn [set_toolsUsed toolsUsed].
    destruct (includes_tool (toolsUsed (state b)) tool) eqn:E.
    + apply includes_tool_In in E.
      apply (count_occ_In EngagementTool_eq_dec) in E. lia.
    + assert (Hnot : ~ In tool (toolsUsed (state b))).
      { intros H. apply includes_tool_In in H. congruence. }
      apply (count_occ_not_In EngagementTool_eq_dec) in Hnot.
      rewrite count_occ_app, Hnot. cbn.
      destruct (EngagementTool_eq_dec tool tool); [reflexivity | congruence].
Qed.

(* ================================================================== *)
(** ** Counters against the events of a session *)
(* ================================================================== *)

Lemma run_counts (cs : list Call) :
  forall b : WakeSessionBrain,
  0 <= silenceCount (state b) ->
  responseCount (state (run cs b))
  = responseCount (state b) + Z.of_nat (List.length (filter is_utterance cs))
  /\ lastUserResponse (state (run cs b))
     = last_utterance cs (lastUserResponse (state b))
  /\ 0 <= silenceCount (state (run cs b))
     <= silenceCount (state b) + Z.of_nat (List.length (filter is_silence cs)).
Proof.
  induction cs as [|c cs IH]; intros b H0.
  - cbn. repeat split; lia.
  - rewrite run_cons.
    assert (H0' : 0 <= silenceCount (state (call c b))).
    { destruct c; cbn [call].
      - destruct (recordUserResponse_fields transcript b)
          as (_ & _ & _ & _ & -> & _).
        destruct (isLazy transcript); lia.
      - destruct (recordSilence_counters (state b)) as (H & _).
        unfold recordSilence, on_state; cbn [state]. rewrite H. lia.
      - rewrite markToolUsed_state_eq. exact H0.
      - rewrite generateInstruction_state.
        destruct (getNextTool b); [rewrite markToolUsed_state_eq|]; exact H0.
      - exact H0. }
    destruct (IH (call c b) H0') as (Hrc & Hlu & Hsc).
    pose proof (call_silenceCount c b H0) as Hstep.
    rewrite Hrc, Hlu, call_responseCount, call_lastUserResponse.
    destruct c; cbn [filter is_utterance is_silence last_utterance List.length] in *;
      (split; [lia | split; [reflexivity | lia]]).
Qed.

(** X3.  In every session, [responseCount] is the number of
    [recordUserResponse] calls made so far, [lastUserResponse] is the
    transcript of the last of them (none before the first), and
    [silenceCount] lies between 0 and the number of [recordSilence]
    calls. *)
Theorem counters_count_events
    (persona : string) (prefs : Preferences) (ctx : Context) (now : Z)
    (cs : list Call) :
  let b := run cs (new_WakeSessionBrain persona prefs ctx now) in
  responseCount (state b) = Z.of_nat (List.length (filter is_utterance cs))
  /\ lastUserResponse (state b) = last_utterance cs None
  /\ 0 <= silenceCount (state b)
     <= Z.of_nat (List.length (filter is_silence cs)).
Proof.
  cbv zeta.
  destruct (run_counts cs (new_WakeSessionBrain persona prefs ctx now))
    as (Hrc & Hlu & Hsc); [cbn; lia|].
  cbn in Hrc, Hlu, Hsc. repeat split; try assumption; lia.
Qed.

(* ================================================================== *)
(** ** How the phases are entered *)
(* ================================================================== *)

(** The forward moves of an utterance, before voice commands. *)
Lemma engaged_phase_cases (t : string) (s : WakeSessionState) :
  phase (engaged t s) = phase s
  \/ (phase s = brain_wakeup /\ phase (engaged t s) = soft_chat)
  \/ (phase s = soft_chat /\ phase (engaged t s) = encouragement)
  \/ (phase s = encouragement /\ phase (engaged t s) = movement).
Proof.
  cbn [engaged phase]. destruct (isLazy t); [left; reflexivity|].
  destruct (phase s); cbn -[Z.leb];
    repeat match goal with
           | |- context [if ?c then _ else _] => destruct c
           end; tauto.
Qed.

Lemma recordSilence_phase_cases (s : WakeSessionState) :
  phase (recordSilence_state s) = phase s
  \/ (phase s = brain_wakeup /\ phase (recordSilence_state s) = soft_chat)
  \/ (phase s = soft_chat /\ phase (recordSilence_state s) = encouragement)
  \/ (phase s = encouragement /\ phase (recordSilence_state s) = movement).
Proof.
  destruct s as [ph st tu ta r sc rc lu el pr cx].
  unfold recordSilence_state; cbn -[Z.leb Z.min Z.add].
  destruct ph; cbn -[Z.leb Z.min Z.add];
    repeat match goal with
           | |- context [if ?c then _ else _] => destruct c
           end; cbn; tauto.
Qed.

(** Where the phase can be after a call. *)
Lemma call_phase_cases (c : Call) (b : WakeSessionBrain) :
  let p := phase (state b) in
  let q := phase (state (call c b)) in
  q = p
  \/ (p = brain_wakeup /\ q = soft_chat)
  \/ (p = soft_chat /\ q = encouragement)
  \/ (p = encouragement /\ q = movement)
  \/ (wake_declaration c = true /\ q = verification)
  \/ (is_markComplete c = true /\ q = complete).
Proof.
  cbv zeta. destruct c; cbn [call wake_declaration is_markComplete].
  - rewrite recordUserResponse_phase. destruct (says_awake transcript).
    + right. right. right. right. left. split; reflexivity.
    + destruct (engaged_phase_cases transcript (state b)) as [H|[H|[H|H]]]; tauto.
  - unfold recordSilence, on_state; cbn [state].
    destruct (recordSilence_phase_cases (state b)) as [H|[H|[H|H]]]; tauto.
  - left. apply markToolUsed_phase.
  - left. rewrite generateInstruction_state.
    destruct (getNextTool b); [apply markToolUsed_phase | reflexivity].
  - right. right. right. right. right. split; reflexivity.
Qed.

Lemma call_keeps_incomplete (c : Call) (b : WakeSessionBrain) :
  negb (is_markComplete c) = true ->
  isComplete b = false -> isComplete (call c b) = false.
Proof.
  intros Hc Hb. unfold isComplete, phase_eqb in *.
  destruct (SessionPhase_eq_dec (phase (state b)) complete) as [|Hp];
    [discriminate|].
  destruct (SessionPhase_eq_dec (phase (state (call c b))) complete) as [Hq|];
    [|reflexivity].
  exfalso. apply negb_true_iff in Hc.
  pose proof (call_phase_cases c b) as H. cbv zeta in H. rewrite Hq in H.
  destruct H as [H|[[_ H]|[[_ H]|[[_ H]|[[_ H]|[H _]]]]]];
    try discriminate H; congruence.
Qed.

(** X4.  Only [markComplete] completes a session: as long as it is not
    called, [isComplete] answers false after every call, whatever the
    user says and however long the silence lasts. *)
Theorem complete_only_by_markComplete
    (persona : string) (prefs : Preferences) (ctx : Context) (now : Z)
    (cs : list Call) :
  forallb (fun c => negb (is_markComplete c)) cs = true ->
  Forall (fun b => isComplete b = false)
         (observe cs (new_WakeSessionBrain persona prefs ctx now)).
Proof.
  intros Hok.
  apply (observe_invariant_on (fun b => isComplete b = false)
           (fun c => negb (is_markComplete c)));
    [exact call_keeps_incomplete | exact Hok | reflexivity].
Qed.

Lemma complete_only_by_markComplete_witness :
  forallb (fun c => negb (is_markComplete c))
          (repeat RecordSilence 9 ++ [RecordUserResponse "I'm up"]) = true
  /\ isComplete (run (repeat RecordSilence 9 ++ [RecordUserResponse "I'm up"])
                     fresh) = false.
Proof.
  split; [reflexivity|].
  pose proof (complete_only_by_markComplete "morning-coach" sample_preferences
                sample_context 0
                (repeat RecordSilence 9 ++ [RecordUserResponse "I'm up"])
                eq_refl) as H.
  rewrite Forall_forall in H. apply H.
  vm_compute. tauto.
Defined.

(** X5.  [verification] is entered through a wake declaration only: in
    a session where no utterance holds one, the phase is not
    [verification] after any call. *)
Theorem verification_only_by_wake_declaration
    (persona : string) (prefs : Preferences) (ctx : Context) (now : Z)
    (cs : list Call) :
  forallb (fun c => negb (wake_declaration c)) cs = true ->
  Forall (fun b => phase (state b) <> verification)
         (observe cs (new_WakeSessionBrain persona prefs ctx now)).
Proof.
  intros Hok.
  apply (observe_invariant_on (fun b => phase (state b) <> verification)
           (fun c => negb (wake_declaration c)));
    [|exact Hok|cbn; discriminate].
  - intros c b Hc Hb Hq. apply negb_true_iff in Hc.
    pose proof (call_phase_cases c b) as H. cbv zeta in H. rewrite Hq in H.
    destruct H as [H|[[_ H]|[[_ H]|[[_ H]|[[H _]|[_ H]]]]]];
      try discriminate H; congruence.
Qed.

Lemma verification_only_by_wake_declaration_witness :
  forallb (fun c => negb (wake_declaration c))
          (repeat RecordSilence 20 ++ [RecordUserResponse "Ok I will get up"])
  = true
  /\ phase (state (run (repeat RecordSilence 20
                          ++ [RecordUserResponse "Ok I will get up"]) fresh))
     <> verification.
Proof.
  split; [reflexivity|].
  pose proof (verification_only_by_wake_declaration "morning-coach"
                sample_preferences sample_context 0
                (repeat RecordSilence 20 ++ [RecordUserResponse "Ok I will get up"])
                eq_refl) as H.
  rewrite Forall_forall in H.
  apply (H (run (repeat RecordSilence 20
                   ++ [RecordUserResponse "Ok I will get up"]) fresh)).
  vm_compute. tauto.
Defined.

(* ================================================================== *)
(** ** Escalation *)
(* ================================================================== *)

Lemma escalation_cap_bounds (p : SessionPhase) : 0 <= escalation_cap p <= 4.
Proof. destruct p; cbn; lia. Qed.

Lemma recordSilence_within_cap (b : WakeSessionBrain) :
  within_cap b -> within_cap (recordSilence b).
Proof.
  unfold within_cap, recordSilence, on_state; cbn [state].
  destruct (state b) as [ph st tu ta r sc rc lu el pr cx].
  unfold recordSilence_state; cbn -[Z.leb Z.min Z.add].
  destruct ph; cbn -[Z.leb Z.min Z.add]; intros H;
    repeat match goal with
           | |- context [if ?c then _ else _] => destruct c
           end; cbn -[Z.min]; lia.
Qed.

Lemma call_within_cap (c : Call) (b : WakeSessionBrain) :
  within_cap b -> within_cap (call c b).
Proof.
  intros Hb. destruct c; cbn [call].
  - unfold within_cap in *.
    destruct (recordUserResponse_fields transcript b)
      as (_ & _ & _ & _ & _ & -> & _).
    pose proof (call_phase_cases (RecordUserResponse transcript) b) as H.
    cbv zeta in H. cbn [call] in H.
    pose proof (escalation_cap_bounds (phase (state b))).
    destruct H as [->|[[Hp ->]|[[Hp ->]|[[Hp ->]|[[_ ->]|[H _]]]]]];
      try discriminate H; try rewrite Hp in *; cbn in *; lia.
  - apply recordSilence_within_cap, Hb.
  - unfold within_cap. rewrite markToolUsed_state_eq. exact Hb.
  - rewrite generateInstruction_state. destruct (getNextTool b); [|exact Hb].
    unfold within_cap. rewrite markToolUsed_state_eq. exact Hb.
  - unfold within_cap in *. cbn.
    pose proof (escalation_cap_bounds (phase (state b))). lia.
Qed.

(** X6.  The escalation level never exceeds what the phase allows: it
    is 0 throughout [brain_wakeup], at most 2 in [soft_chat], at most 3
    in [encouragement] and at most 4 afterwards, in every state of every
    session. *)
Theorem escalation_capped_by_phase
    (persona : string) (prefs : Preferences) (ctx : Context) (now : Z)
    (cs : list Call) :
  Forall (fun b => 0 <= escalationLevel (state b)
                   <= escalation_cap (phase (state b)))
         (observe cs (new_WakeSessionBrain persona prefs ctx now)).
Proof.
  apply (observe_invariant within_cap).
  - exact call_within_cap.
  - unfold within_cap. cbn. lia.
Qed.

(* ================================================================== *)
(** ** Unbroken silence, steady engagement *)
(* ================================================================== *)

Lemma recordSilence_schedule (n : nat) (b : WakeSessionBrain) :
  on_schedule n b -> on_schedule (S n) (recordSilence b).
Proof.
  unfold on_schedule, recordSilence, on_state; cbn [state].
  destruct (state b) as [ph st tu ta r sc rc lu el pr cx].
  cbn [phase escalationLevel silenceCount]. intros [Hs ->].
  do 9 (destruct n as [|n];
        [injection Hs as -> ->; split; reflexivity|]).
  cbn [silence_schedule] in Hs. injection Hs as -> ->.
  unfold recordSilence_state; cbn -[Z.leb Z.min Z.add Z.of_nat].
  split; [|lia].
  cbn [silence_schedule]. f_equal.
Qed.

Lemma quiet_call_schedule (n : nat) (c : Call) (b : WakeSessionBrain) :
  is_quiet c = true ->
  on_schedule n b ->
  on_schedule (if is_silence c then S n else n) (call c b).
Proof.
  intros Hc Hb. destruct c; cbn [is_quiet] in Hc; try discriminate Hc;
    cbn [call is_silence].
  - apply recordSilence_schedule, Hb.
  - unfold on_schedule. rewrite markToolUsed_state_eq. exact Hb.
  - rewrite generateInstruction_state. destruct (getNextTool b); [|exact Hb].
    unfold on_schedule. rewrite markToolUsed_state_eq. exact Hb.
Qed.

Lemma quiet_run_schedule (cs : list Call) :
  forall (n : nat) (b : WakeSessionBrain),
  forallb is_quiet cs = true ->
  on_schedule n b ->
  on_schedule (n + List.length (filter is_silence cs)) (run cs b).
Proof.
  induction cs as [|c cs IH]; intros n b Hcs Hb.
  - cbn. rewrite Nat.add_0_r. exact Hb.
  - cbn [forallb] in Hcs. apply andb_true_iff in Hcs. destruct Hcs as [Hc Hcs].
    rewrite run_cons.
    pose proof (IH _ _ Hcs (quiet_call_schedule n c b Hc Hb)) as H.
    cbn [filter]. destruct (is_silence c); cbn [List.length].
    + rewrite Nat.add_succ_r. exact H.
    + exact H.
Qed.

(** X7.  While the user says nothing, the number of silences alone
    fixes phase and escalation level: [brain_wakeup] at level 0 up to
    the third silence, [soft_chat] at level 1 on the fourth and 2 on the
    fifth, [encouragement] at level 2 on the sixth and 3 on the seventh,
    [movement] at level 3 on the eighth and at level 4 from the ninth
    on.  Instructions generated and tools marked in between change
    nothing of it, and such a session never gets past [movement]. *)
Theorem silence_alone_follows_schedule
    (persona : string) (prefs : Preferences) (ctx : Context) (now : Z)
    (cs : list Call) :
  forallb is_quiet cs = true ->
  let b := run cs (new_WakeSessionBrain persona prefs ctx now) in
  let n := List.length (filter is_silence cs) in
  (phase (state b), escalationLevel (state b)) = silence_schedule n
  /\ silenceCount (state b) = Z.of_nat n
  /\ phase_le (phase (state b)) movement.
Proof.
  intros Hcs b n.
  destruct (quiet_run_schedule cs 0 (new_WakeSessionBrain persona prefs ctx now) Hcs)
    as [Hs Hn]; [split; reflexivity|].
  cbn [Nat.add] in Hs, Hn. fold b n in Hs, Hn.
  split; [exact Hs | split; [exact Hn|]].
  assert (Hp : phase (state b) = fst (silence_schedule n)) by (rewrite <- Hs; reflexivity).
  rewrite Hp. unfold phase_le.
  do 9 (destruct n as [|n]; [cbn; lia|]). cbn. lia.
Qed.

Lemma silence_alone_follows_schedule_witness :
  let cs := [RecordSilence; GenerateInstruction; RecordSilence;
             GenerateInstruction; RecordSilence; GenerateInstruction;
             RecordSilence; GenerateInstruction; RecordSilence] in
  forallb is_quiet cs = true
  /\ phase (state (run cs fresh)) = soft_chat
  /\ escalationLevel (state (run cs fresh)) = 2
  /\ silenceCount (state (run cs fresh)) = 5.
Proof.
  intros cs. split; [reflexivity|].
  pose proof (silence_alone_follows_schedule "morning-coach" sample_preferences
                sample_context 0 cs eq_refl) as H.
  cbv zeta in H. destruct H as (Hs & Hn & _).
  split; [exact (f_equal fst Hs) | split; [exact (f_equal snd Hs) | exact Hn]].
Defined.

Lemma genuine_utterance_ladder (n : nat) (t : string) (b : WakeSessionBrain) :
  genuine t = true ->
  on_ladder n b -> on_ladder (S n) (recordUserResponse t b).
Proof.
  unfold genuine, on_ladder. intros Hg (Hp & Hrc & Hel & Hsc).
  apply andb_true_iff in Hg. destruct Hg as [Hlazy Hawake].
  apply negb_true_iff in Hlazy, Hawake.
  destruct (recordUserResponse_fields t b) as (_ & _ & -> & _ & -> & -> & _).
  rewrite recordUserResponse_phase, Hawake, Hlazy, Hel, Hrc.
  cbn [engaged phase]. rewrite Hlazy, Hp, Hrc.
  split; [|split; [lia | split; reflexivity]].
  do 4 (destruct n as [|n]; [reflexivity|]).
  cbn [engagement_ladder]. reflexivity.
Qed.

Lemma genuine_run_ladder (ts : list string) :
  forall (n : nat) (b : WakeSessionBrain),
  forallb genuine ts = true ->
  on_ladder n b ->
  on_ladder (n + List.length ts) (run (map RecordUserResponse ts) b).
Proof.
  induction ts as [|t ts IH]; intros n b Hts Hb.
  - cbn. rewrite Nat.add_0_r. exact Hb.
  - cbn [forallb] in Hts. apply andb_true_iff in Hts. destruct Hts as [Ht Hts].
    cbn [map List.length]. rewrite run_cons, Nat.add_succ_r.
    apply (IH (S n)); [exact Hts|]. cbn [call].
    apply genuine_utterance_ladder; assumption.
Qed.

(** X8.  When the user keeps answering with more than lazy
    acknowledgments and declares nothing, the number of answers alone
    fixes the phase: [soft_chat] after the first, [encouragement] after
    the second and third, [movement] from the fourth on; silence count
    and escalation level stay at 0.  Engagement alone never reaches
    [verification]. *)
Theorem engagement_alone_follows_ladder
    (persona : string) (prefs : Preferences) (ctx : Context) (now : Z)
    (ts : list string) :
  forallb genuine ts = true ->
  let b := run (map RecordUserResponse ts)
               (new_WakeSessionBrain persona prefs ctx now) in
  phase (state b) = engagement_ladder (List.length ts)
  /\ responseCount (state b) = Z.of_nat (List.length ts)
  /\ escalationLevel (state b) = 0
  /\ silenceCount (state b) = 0.
Proof.
  intros Hts b.
  apply (genuine_run_ladder ts 0 (new_WakeSessionBrain persona prefs ctx now) Hts).
  repeat split.
Qed.

Lemma engagement_alone_follows_ladder_witness :
  let ts := ["Good morning"; "I slept fine, thanks"; "Not much planned";
             "Fine, coffee sounds good"]%string in
  forallb genuine ts = true
  /\ phase (state (run (map RecordUserResponse ts) fresh)) = movement
  /\ responseCount (state (run (map RecordUserResponse ts) fresh)) = 4.
Proof.
  intros ts. split; [reflexivity|].
  pose proof (engagement_alone_follows_ladder "morning-coach" sample_preferences
                sample_context 0 ts eq_refl) as H.
  cbv zeta in H. destruct H as (Hp & Hrc & _).
  split; [exact Hp | exact Hrc].
Defined.

(* ================================================================== *)
(** ** What the selector hands out *)
(* ================================================================== *)

Lemma repeatableTools_available (b : WakeSessionBrain) (prefs : Preferences) :
  incl (repeatableTools b) (getAvailableTools prefs).
Proof.
  intros t Ht.
  destruct (getAvailableTools_toggles prefs) as (_ & _ & _ & Hbase).
  apply Hbase. unfold repeatableTools in Ht.
  destruct (phase_eqb _ _); [|destruct (String.eqb _ _)];
    cbn in Ht |- *; intuition.
Qed.

Lemma rotate_In (l : list EngagementTool) (n : Z) (t : EngagementTool) :
  rotate l n = Some t -> In t l.
Proof. unfold rotate. apply nth_error_In. Qed.

(** Whatever [getNextTool] returns is a curated tool that passed the
    test of the loop, or a tool of the repeatable pool. *)
Lemma getNextTool_origin (b : WakeSessionBrain) (t : EngagementTool) :
  0 <= silenceCount (state b) ->
  getNextTool b = Some t ->
  (In t (priority b) /\ eligible (state b) t = true)
  \/ In t (repeatableTools b).
Proof.
  intros Hn Ht.
  destruct (find (eligible (state b)) (priority b)) as [u|] eqn:Hfind.
  - left. unfold getNextTool in Ht.
    change (fun tool => negb (includes_tool (toolsUsed (state b)) tool)
                        && includes_tool (toolsAvailable (state b)) tool)
      with (eligible (state b)) in Ht.
    rewrite Hfind in Ht. injection Ht as <-.
    apply find_some in Hfind. exact Hfind.
  - right. rewrite (getNextTool_fallback b Hn Hfind) in Ht.
    destruct (restricted_pool b) as [|r rs] eqn:E.
    + apply rotate_In in Ht. exact Ht.
    + apply rotate_In in Ht. rewrite <- E in Ht.
      unfold restricted_pool in Ht. apply filter_In in Ht. tauto.
Qed.

(** X9.  In every state of every session [getNextTool] returns a tool,
    and one that is among the available tools as they were set up from
    the preferences at creation: the selector never proposes weather,
    calendar or news to a session created without them. *)
Theorem getNextTool_returns_available_tool
    (persona : string) (prefs : Preferences) (ctx : Context) (now : Z)
    (cs : list Call) :
  let b := run cs (new_WakeSessionBrain persona prefs ctx now) in
  exists t,
    getNextTool b = Some t
    /\ In t (toolsAvailable (state b))
    /\ toolsAvailable (state b) = getAvailableTools prefs.
Proof.
  intros b.
  assert (Hinv : clamped b /\ toolsAvailable (state b) = getAvailableTools prefs).
  { apply (run_invariant
             (fun b => clamped b
                       /\ toolsAvailable (state b) = getAvailableTools prefs)).
    - intros c b' [Hc Ha]. split; [apply call_clamped, Hc|].
      rewrite call_toolsAvailable. exact Ha.
    - split; [unfold clamped; cbn; lia | reflexivity]. }
  destruct Hinv as [[_ Hn] Ha].
  destruct (selection_rule_at b Hn) as (_ & _ & _ & _ & _ & _ & Hsome).
  destruct (getNextTool b) as [t|] eqn:Ht; [|congruence].
  exists t. split; [reflexivity|]. split; [|exact Ha].
  destruct (getNextTool_origin b t Hn Ht) as [[_ He] | Hpool].
  - unfold eligible in He. apply andb_true_iff in He.
    apply includes_tool_In. tauto.
  - rewrite Ha. apply (repeatableTools_available b prefs t Hpool).
Qed.

(** X10.  For every persona id, known or not, and every preference
    setting, the first instruction of a new session proposes the
    greeting, comes without the user-is-silent header, and leaves
    [greeting] as the only tool used. *)
Theorem first_instruction_is_greeting
    (persona : string) (prefs : Preferences) (ctx : Context) (now : Z) :
  let b := new_WakeSessionBrain persona prefs ctx now in
  nextApproach (fst (generateInstruction b)) = Some greeting
  /\ silentHeader (fst (generateInstruction b)) = false
  /\ toolsUsed (state (snd (generateInstruction b))) = [greeting].
Proof.
  cbv zeta.
  assert (Hnext : getNextTool (new_WakeSessionBrain persona prefs ctx now)
                  = Some greeting).
  { unfold getNextTool, priority, TOOL_PRIORITY.
    cbn [new_WakeSessionBrain state personaId phase toolsUsed toolsAvailable].
    destruct prefs as [[] [] [] []];
      (destruct (String.eqb persona "zen-guide"); [reflexivity|];
       destruct (String.eqb persona "morning-coach"); [reflexivity|];
       destruct (String.eqb persona "strict-sergeant"); reflexivity). }
  rewrite generateInstruction_state.
  unfold generateInstruction; cbn [fst nextApproach silentHeader].
  rewrite Hnext. repeat split.
Qed.

Lemma call_keeps_toolsUsed_nonempty (c : Call) (b : WakeSessionBrain) :
  toolsUsed (state b) <> [] -> toolsUsed (state (call c b)) <> [].
Proof.
  intros Hb. destruct (call_toolsUsed c b) as [-> | (t & _ & ->)]; [exact Hb|].
  destruct (toolsUsed (state b)); discriminate.
Qed.

(** X11.  Once a session has generated an instruction, every later
    instruction carries the user-is-silent header: the opening framing
    is used for the first instruction at most. *)
Theorem silent_header_after_first_instruction
    (persona : string) (prefs : Preferences) (ctx : Context) (now : Z)
    (cs1 cs2 : list Call) :
  let b := run (cs1 ++ GenerateInstruction :: cs2)
               (new_WakeSessionBrain persona prefs ctx now) in
  toolsUsed (state b) <> []
  /\ silentHeader (fst (generateInstruction b)) = true.
Proof.
  intros b.
  assert (Hne : toolsUsed (state b) <> []).
  { subst b. rewrite run_app, run_cons.
    apply (run_invariant (fun b => toolsUsed (state b) <> [])).
    - exact call_keeps_toolsUsed_nonempty.
    - set (b1 := run cs1 (new_WakeSessionBrain persona prefs ctx now)).
      assert (Hn : 0 <= silenceCount (state b1)).
      { apply (run_invariant clamped call_clamped cs1).
        unfold clamped; cbn. lia. }
      destruct (selection_rule_at b1 Hn) as (_ & _ & _ & _ & _ & _ & Hsome).
      cbn [call]. rewrite generateInstruction_state.
      destruct (getNextTool b1) as [t|]; [|congruence].
      rewrite markToolUsed_state_eq. cbn [set_toolsUsed toolsUsed].
      destruct (includes_tool (toolsUsed (state b1)) t) eqn:E.
      + apply includes_tool_In in E. intros H. rewrite H in E. exact E.
      + destruct (toolsUsed (state b1)); discriminate. }
  split; [exact Hne|].
  unfold generateInstruction; cbn [fst silentHeader].
  destruct (toolsUsed (state b)); [congruence | reflexivity].
Qed.

(* ================================================================== *)
(** ** Preferences turned off by voice *)
(* ================================================================== *)

Lemma call_preferences (c : Call) (b : WakeSessionBrain) :
  preferences (state (call c b))
  = {| includeNews := includeNews (preferences (state b)) && negb (skips_news c);
       includeWeather :=
         includeWeather (preferences (state b)) && negb (skips_weather c);
       includeCalendar := includeCalendar (preferences (state b));
       includeStories := includeStories (preferences (state b)) |}.
Proof.
  assert (Hsame : forall p : Preferences,
    p = {| includeNews := includeNews p && negb false;
           includeWeather := includeWeather p && negb false;
           includeCalendar := includeCalendar p;
           includeStories := includeStories p |}).
  { intros [[] [] [] []]; reflexivity. }
  destruct c; cbn [call skips_news skips_weather].
  - unfold recordUserResponse, on_state; cbn [state].
    rewrite recordUserResponse_state_unfold, checkVoiceCommands_preferences.
    cbn [engaged preferences].
    destruct (says_skip_news transcript), (says_skip_weather transcript),
             (preferences (state b)) as [[] [] [] []]; reflexivity.
  - unfold recordSilence, on_state; cbn [state].
    destruct (recordSilence_counters (state b)) as (_ & _ & _ & _ & -> & _).
    apply Hsame.
  - rewrite markToolUsed_state_eq. apply Hsame.
  - rewrite generateInstruction_state.
    destruct (getNextTool b); [rewrite markToolUsed_state_eq|]; apply Hsame.
  - apply Hsame.
Qed.

Lemma call_keeps_topic_off (topic : Topic) (c : Call) (b : WakeSessionBrain) :
  topic_included topic (preferences (state b)) = false ->
  topic_included topic (preferences (state (call c b))) = false.
Proof.
  rewrite call_preferences. destruct topic; cbn; intros ->; reflexivity.
Qed.

(** X12.  A skip command sticks: after an utterance that holds "skip
    news" or "no news" (and likewise "skip weather" or "no weather"),
    the preference is off in every later state of the session, whatever
    is called, and no later instruction carries that content. *)
Theorem skipped_topic_stays_off
    (topic : Topic) (t : string) (b : WakeSessionBrain) (cs : list Call) :
  says_skip topic t = true ->
  let b' := run cs (recordUserResponse t b) in
  topic_included topic (preferences (state b')) = false
  /\ topic_info topic (fst (generateInstruction b')) = None.
Proof.
  intros Hskip b'.
  assert (Hoff : topic_included topic (preferences (state b')) = false).
  { apply (run_invariant
             (fun b => topic_included topic (preferences (state b)) = false)).
    - intros c b0. apply call_keeps_topic_off.
    - change (recordUserResponse t b) with (call (RecordUserResponse t) b).
      rewrite call_preferences. cbn [skips_news skips_weather].
      destruct topic; cbn in Hskip |- *; rewrite Hskip; apply andb_false_r. }
  split; [exact Hoff|].
  unfold generateInstruction; cbn [fst].
  destruct topic; cbn [topic_info topic_included availableNews availableWeather] in *;
    rewrite Hoff; unfold available_info;
    match goal with
    | |- match ?o with _ => _ end = None => destruct o as [[|]|]; reflexivity
    end.
Qed.

Lemma skipped_topic_stays_off_witness :
  let cs := [RecordSilence; GenerateInstruction; RecordUserResponse "Yes"] in
  says_skip NewsTopic "Please skip news today" = true
  /\ availableNews (fst (generateInstruction fresh)) = Some "Headlines"%string
  /\ availableNews
       (fst (generateInstruction
               (run cs (recordUserResponse "Please skip news today" fresh))))
     = None.
Proof.
  intros cs. split; [reflexivity|]. split; [reflexivity|].
  apply (skipped_topic_stays_off NewsTopic "Please skip news today" fresh cs
           eq_refl).
Defined.

(* ================================================================== *)
(** ** Variation suggestions *)
(* ================================================================== *)

(** X13.  For a tool with canned variations and a silence count that is
    not negative, [getVariationSuggestions] returns the phrase at
    position [silenceCount mod 4] and the one after it; at position 3
    the window is cut at the end of the list and holds the last phrase
    alone, without wrapping round.  It is never empty. *)
Theorem variation_window (tool : EngagementTool) (silenceCount : Z) :
  0 <= silenceCount ->
  variations tool <> None ->
  getVariationSuggestions tool silenceCount
  = Phrases (if silenceCount mod 4 =? 3 then [3%nat]
             else [Z.to_nat (silenceCount mod 4);
                   S (Z.to_nat (silenceCount mod 4))]).
Proof.
  intros Hn Hv. unfold getVariationSuggestions.
  destruct (variations tool) as [l|] eqn:E; [|congruence].
  assert (Hl : l = [0; 1; 2; 3]%nat).
  { destruct tool; cbn in E; congruence. }
  subst l. unfold Js.remainder. cbn [List.length Z.of_nat Pos.of_succ_nat Pos.succ].
  rewrite Z.rem_mod_nonneg by lia.
  pose proof (Z.mod_pos_bound silenceCount 4 ltac:(lia)) as Hb.
  assert (Hk : silenceCount mod 4 = 0 \/ silenceCount mod 4 = 1
               \/ silenceCount mod 4 = 2 \/ silenceCount mod 4 = 3) by lia.
  destruct Hk as [-> | [-> | [-> | ->]]]; reflexivity.
Qed.

Lemma variation_window_witness :
  0 <= 7 /\ variations breathing <> None
  /\ getVariationSuggestions breathing 7 = Phrases [3%nat]
  /\ getVariationSuggestions breathing 6 = Phrases [2%nat; 3%nat].
Proof.
  assert (H : variations breathing <> None) by (cbn; discriminate).
  split; [lia|]. split; [exact H|]. split.
  - apply (variation_window breathing 7); [lia | exact H].
  - apply (variation_window breathing 6); [lia | exact H].
Defined.

(* ================================================================== *)
(** ** Trimming *)
(* ================================================================== *)

Lemma trimEnd_idempotent (s : string) : Js.trimEnd (Js.trimEnd s) = Js.trimEnd s.
Proof.
  induction s as [|c r IH]; [reflexivity|].
  cbn [Js.trimEnd]. destruct (Js.trimEnd r) as [|a r'] eqn:E.
  - destruct (Js.is_space c) eqn:Ec; [reflexivity|].
    cbn [Js.trimEnd]. rewrite Ec. reflexivity.
  - cbn [Js.trimEnd] in IH |- *. rewrite IH. reflexivity.
Qed.

Lemma trimStart_cases (s : string) :
  Js.trimStart s = EmptyString
  \/ exists c r, Js.trimStart s = String c r /\ Js.is_space c = false.
Proof.
  induction s as [|c r IH]; [left; reflexivity|].
  cbn [Js.trimStart]. destruct (Js.is_space c) eqn:Ec; [exact IH|].
  right. exists c, r. split; [reflexivity | exact Ec].
Qed.

Lemma trimEnd_head (c : ascii) (r : string) :
  Js.is_space c = false -> exists r', Js.trimEnd (String c r) = String c r'.
Proof.
  intros Ec. cbn [Js.trimEnd]. destruct (Js.trimEnd r) as [|a r'].
  - rewrite Ec. exists EmptyString. reflexivity.
  - exists (String a r'). reflexivity.
Qed.

Lemma trim_idempotent (s : string) : Js.trim (Js.trim s) = Js.trim s.
Proof.
  unfold Js.trim.
  destruct (trimStart_cases s) as [-> | (c & r & -> & Ec)]; [reflexivity|].
  destruct (trimEnd_head c r Ec) as (r' & Hr).
  rewrite Hr. cbn [Js.trimStart]. rewrite Ec, <- Hr. apply trimEnd_idempotent.
Qed.

Lemma all_space_trim (s : string) :
  all_space s = true -> Js.trim s = EmptyString.
Proof.
  unfold Js.trim. induction s as [|c r IH]; intros H; [reflexivity|].
  cbn in H. apply andb_true_iff in H. destruct H as [Hc Hr].
  cbn [Js.trimStart]. rewrite Hc. apply IH, Hr.
Qed.

(* ================================================================== *)
(** ** The chained session as a sequence of brain calls *)
(* ================================================================== *)

Lemma transcribeAudio_trimmed (client : bool) (primary fallback : Transcription)
    (y : string) :
  transcribeAudio client primary fallback = Returned y -> Js.trim y = y.
Proof.
  assert (Ht : forall t, Js.trim (trimmed_text t) = trimmed_text t).
  { intros [t|]; [apply trim_idempotent | reflexivity]. }
  unfold transcribeAudio. destruct client; cbn [negb]; [|discriminate].
  destruct primary as [|t].
  - destruct fallback as [|t]; intros H; injection H as <-;
      [reflexivity | apply Ht].
  - destruct (existsb _ noisePatterns); intros H; injection H as <-;
      [reflexivity | apply Ht].
Qed.

Lemma hasRealMessage_real (m : string) :
  hasRealMessage (Some m) = true ->
  all_space m = false /\ isJustQuotes (Some m) = false.
Proof.
  unfold hasRealMessage. destruct m as [|c r]; [discriminate|].
  destruct (Js.trim (String c r)) eqn:E; [discriminate|].
  intros H. apply negb_true_iff in H. split; [|exact H].
  destruct (all_space (String c r)) eqn:Ea; [|reflexivity].
  apply all_space_trim in Ea. congruence.
Qed.

Lemma generateResponse_brain (client : bool) (m : option string)
    (completion : Completion) (s : ChainedSession) :
  let s' := snd (generateResponse client m completion s) in
  brain s' = run (generateResponse_calls client m s) (brain s)
  /\ isProcessing s' = isProcessing s
  /\ List.length (user_entries (conversationHistory s'))
     = (List.length (user_entries (conversationHistory s))
        + List.length (filter is_utterance (generateResponse_calls client m s)))%nat.
Proof.
  cbv zeta. unfold generateResponse, generateResponse_calls.
  destruct client; cbn [negb]; [|cbn; repeat split; lia].
  assert (Hu : forall h e,
    List.length (user_entries (h ++ [(assistant, e)]))
    = List.length (user_entries h)).
  { intros h e. unfold user_entries. rewrite filter_app. cbn.
    rewrite app_nil_r. reflexivity. }
  assert (Hu' : forall h e,
    List.length (user_entries (h ++ [(user, e)]))
    = S (List.length (user_entries h))).
  { intros h e. unfold user_entries. rewrite filter_app, length_app. cbn. lia. }
  destruct (hasRealMessage m) eqn:Hreal.
  - destruct m as [t|]; [|discriminate Hreal].
    destruct completion; cbn; rewrite ?Hu, ?Hu'; repeat split;
      unfold user_entries in *; lia.
  - cbn [set_brain conversationHistory].
    destruct (Nat.eqb (List.length (conversationHistory s)) 0);
      [|destruct m as [t|]]; destruct completion; cbn;
      rewrite ?Hu; repeat split; unfold user_entries in *; lia.
Qed.

Lemma serve_brain (client : bool) (r : Request) (s : ChainedSession) :
  let s' := serve client r s in
  brain s' = run (serve_calls client r s) (brain s)
  /\ isProcessing s' = false
  /\ List.length (user_entries (conversationHistory s'))
     = (List.length (user_entries (conversationHistory s))
        + List.length (filter is_utterance (serve_calls client r s)))%nat.
Proof.
  cbv zeta. destruct r as [completion speech | primary fallback completion speech
                           | completion speech];
    cbn [serve serve_calls].
  - unfold generateGreeting.
    pose proof (generateResponse_brain client None completion
                  (set_isProcessing true s)) as H.
    cbv zeta in H.
    destruct (generateResponse client None completion (set_isProcessing true s))
      as [[response|] s1]; cbn [snd] in H;
      [destruct (textToSpeech client speech)|]; cbn [snd set_isProcessing brain
        isProcessing conversationHistory]; (split; [|split]);
      try reflexivity; try apply H.
  - unfold processUserAudio.
    destruct (transcribeAudio client primary fallback) as [[|c t]|];
      [cbn [snd set_isProcessing brain isProcessing conversationHistory run
            fold_left filter List.length]; repeat split; lia
      |
      |cbn [snd set_isProcessing brain isProcessing conversationHistory run
            fold_left filter List.length]; repeat split; lia].
    pose proof (generateResponse_brain client (Some (String c t)) completion
                  (set_isProcessing true s)) as H.
    cbv zeta in H.
    destruct (generateResponse client (Some (String c t)) completion
                (set_isProcessing true s))
      as [[response|] s1]; cbn [snd] in H;
      [destruct (textToSpeech client speech)|]; cbn [snd set_isProcessing brain
        isProcessing conversationHistory]; (split; [|split]);
      try reflexivity; try apply H.
  - unfold handleSilence.
    pose proof (generateResponse_brain client None completion
                  (set_brain (recordSilence (brain (set_isProcessing true s)))
                             (set_isProcessing true s))) as H.
    cbv zeta in H.
    destruct (generateResponse client None completion
                (set_brain (recordSilence (brain (set_isProcessing true s)))
                           (set_isProcessing true s)))
      as [[response|] s1]; cbn [snd] in H;
      [destruct (textToSpeech client speech)|]; cbn [snd set_isProcessing brain
        isProcessing conversationHistory]; (split; [|split]);
      try reflexivity; try apply H.
Qed.

Lemma generateResponse_calls_chained (client : bool) (m : option string)
    (s : ChainedSession) :
  match m with Some t => Js.trim t = t | None => True end ->
  Forall chained_call (generateResponse_calls client m s).
Proof.
  intros Hm. unfold generateResponse_calls.
  destruct client; cbn [negb]; [|constructor].
  constructor; [exact I|].
  destruct (hasRealMessage m) eqn:Hreal.
  - destruct m as [t|]; [|constructor].
    constructor; [|constructor].
    destruct (hasRealMessage_real t Hreal) as [Ha Hq].
    cbn [chained_call]. tauto.
  - destruct (Nat.eqb _ 0); [constructor|].
    destruct m; repeat constructor.
Qed.

Lemma serve_calls_chained (client : bool) (r : Request) (s : ChainedSession) :
  Forall chained_call (serve_calls client r s).
Proof.
  destruct r as [completion speech | primary fallback completion speech
                 | completion speech]; cbn [serve_calls].
  - apply generateResponse_calls_chained. exact I.
  - destruct (transcribeAudio client primary fallback) as [[|c t]|] eqn:E;
      try constructor.
    apply generateResponse_calls_chained.
    apply (transcribeAudio_trimmed client primary fallback _ E).
  - constructor; [exact I|]. apply generateResponse_calls_chained. exact I.
Qed.

Lemma chained_call_not_markComplete (cs : list Call) :
  Forall chained_call cs -> forallb (fun c => negb (is_markComplete c)) cs = true.
Proof.
  induction 1 as [|c cs Hc _ IH]; [reflexivity|].
  cbn [forallb]. rewrite IH. destruct c; cbn in Hc |- *; tauto.
Qed.

Lemma serve_all_as_calls (client : bool) (rs : list Request) :
  forall s : ChainedSession,
  exists cs, brain (serve_all client rs s) = run cs (brain s)
             /\ Forall chained_call cs
             /\ List.length (user_entries (conversationHistory (serve_all client rs s)))
                = (List.length (user_entries (conversationHistory s))
                   + List.length (filter is_utterance cs))%nat.
Proof.
  induction rs as [|r rs IH]; intros s.
  - exists []. cbn. repeat split; [constructor | lia].
  - destruct (IH (serve client r s)) as (cs & Hb & Hcs & Hu).
    destruct (serve_brain client r s) as (Hb1 & _ & Hu1). cbv zeta in Hb1, Hu1.
    exists (serve_calls client r s ++ cs).
    change (serve_all client (r :: rs) s) with (serve_all client rs (serve client r s)).
    split; [|split].
    + rewrite Hb, Hb1, run_app. reflexivity.
    + apply Forall_app. split; [apply serve_calls_chained | exact Hcs].
    + rewrite Hu, Hu1, filter_app, length_app. lia.
Qed.

Lemma run_responseCount (cs : list Call) :
  forall b : WakeSessionBrain,
  responseCount (state (run cs b))
  = responseCount (state b) + Z.of_nat (List.length (filter is_utterance cs)).
Proof.
  induction cs as [|c cs IH]; intros b; [cbn; lia|].
  rewrite run_cons, IH, call_responseCount.
  cbn [filter]. destruct (is_utterance c); cbn [List.length]; lia.
Qed.

(* ================================================================== *)
(** ** The chained session *)
(* ================================================================== *)

(** X14.  [handleSilence] counts the silence once: whatever the
    completion and speech services answer, and even without a client,
    the brain's [silenceCount] is one higher afterwards,
    [responseCount] and [lastUserResponse] are as before, no user entry
    joins the history, and [isProcessing] is off again. *)
Theorem handleSilence_counts_once
    (client : bool) (completion : Completion) (speech : option Buffer)
    (s : ChainedSession) :
  let s' := snd (handleSilence client completion speech s) in
  silenceCount (state (brain s')) = silenceCount (state (brain s)) + 1
  /\ responseCount (state (brain s')) = responseCount (state (brain s))
  /\ lastUserResponse (state (brain s')) = lastUserResponse (state (brain s))
  /\ user_entries (conversationHistory s') = user_entries (conversationHistory s)
  /\ isProcessing s' = false.
Proof.
  cbv zeta.
  assert (Hgen : forall b,
    silenceCount (state (snd (generateInstruction b))) = silenceCount (state b)
    /\ responseCount (state (snd (generateInstruction b))) = responseCount (state b)
    /\ lastUserResponse (state (snd (generateInstruction b)))
       = lastUserResponse (state b)).
  { intros b. rewrite generateInstruction_state.
    destruct (getNextTool b); [rewrite markToolUsed_state_eq|]; repeat split. }
  assert (Hsil :
    silenceCount (state (recordSilence (brain s))) = silenceCount (state (brain s)) + 1
    /\ responseCount (state (recordSilence (brain s))) = responseCount (state (brain s))
    /\ lastUserResponse (state (recordSilence (brain s)))
       = lastUserResponse (state (brain s))).
  { destruct (recordSilence_counters (state (brain s))) as (H1 & _ & _ & _ & _ & H2).
    destruct (recordSilence_fields (brain s)) as (H3 & _).
    repeat split; assumption. }
  assert (Hu : forall h e,
    user_entries (h ++ [(assistant, e)]) = user_entries h).
  { intros h e. unfold user_entries. rewrite filter_app. cbn.
    apply app_nil_r. }
  destruct (Hgen (recordSilence (brain s))) as (G1 & G2 & G3).
  destruct Hsil as (S1 & S2 & S3).
  unfold handleSilence, generateResponse, textToSpeech.
  destruct client; cbn [negb].
  - cbn [hasRealMessage set_brain set_isProcessing brain conversationHistory].
    destruct (Nat.eqb (List.length (conversationHistory s)) 0);
      destruct completion as [|content]; destruct speech;
      cbn [snd set_isProcessing set_brain push_history brain
           conversationHistory isProcessing];
      rewrite ?Hu, G1, G2, G3, S1, S2, S3; repeat split.
  - cbn [snd set_isProcessing set_brain brain conversationHistory isProcessing].
    rewrite S1, S2, S3. repeat split.
Qed.

(** X15.  Whatever requests a chained session serves, one after the
    other, and whatever the outside services answer, its brain is the brain of a session of
    brain calls of three kinds only: [generateInstruction],
    [recordSilence], and [recordUserResponse] with a transcript that is
    trimmed, holds more than whitespace and is not a run of quotation
    marks.  [markComplete] is not among them, so [isComplete] never
    becomes true in a chained session. *)
Theorem chained_session_is_brain_session
    (client : bool) (persona : string) (prefs : Preferences) (ctx : Context)
    (now : Z) (rs : list Request) :
  let s := serve_all client rs (createChainedSession persona prefs ctx now) in
  (exists cs,
     brain s = run cs (new_WakeSessionBrain persona prefs ctx now)
     /\ Forall chained_call cs)
  /\ isComplete (brain s) = false.
Proof.
  cbv zeta.
  destruct (serve_all_as_calls client rs (createChainedSession persona prefs ctx now))
    as (cs & Hb & Hcs & _).
  split; [exists cs; split; [exact Hb | exact Hcs]|].
  rewrite Hb. cbn [createChainedSession brain].
  pose proof (chained_call_not_markComplete cs Hcs) as Hok. clear Hb Hcs.
  generalize (new_WakeSessionBrain persona prefs ctx now),
             (eq_refl : isComplete (new_WakeSessionBrain persona prefs ctx now) = false).
  induction cs as [|c cs IH]; intros b Hb; [exact Hb|].
  cbn [forallb] in Hok. apply andb_true_iff in Hok. destruct Hok as [Hc Hok].
  rewrite run_cons. apply (IH Hok). apply call_keeps_incomplete; assumption.
Qed.

(** X16.  A message that is empty, blank or made of quotation marks only
    is no response to [generateResponse]: it adds nothing to
    [responseCount] and no user entry to the history.  It is recorded as
    one silence, unless the history is still empty, in which case the
    call is taken for the opening greeting and no silence is recorded
    either. *)
Theorem unreal_message_is_silence
    (m : string) (completion : Completion) (s : ChainedSession) :
  hasRealMessage (Some m) = false ->
  let s' := snd (generateResponse true (Some m) completion s) in
  responseCount (state (brain s')) = responseCount (state (brain s))
  /\ user_entries (conversationHistory s') = user_entries (conversationHistory s)
  /\ silenceCount (state (brain s'))
     = silenceCount (state (brain s))
       + (if Nat.eqb (List.length (conversationHistory s)) 0 then 0 else 1).
Proof.
  intros Hreal. cbv zeta.
  destruct (generateResponse_brain true (Some m) completion s) as (Hb & _ & _).
  cbv zeta in Hb. rewrite Hb. unfold generateResponse_calls. rewrite Hreal.
  cbn [negb].
  assert (Hu : forall h e,
    user_entries (h ++ [(assistant, e)]) = user_entries h).
  { intros h e. unfold user_entries. rewrite filter_app. cbn.
    apply app_nil_r. }
  assert (Hh : user_entries
                 (conversationHistory (snd (generateResponse true (Some m) completion s)))
               = user_entries (conversationHistory s)).
  { unfold generateResponse. rewrite Hreal. cbn [negb].
    cbn [set_brain conversationHistory].
    destruct (Nat.eqb (List.length (conversationHistory s)) 0);
      destruct completion; cbn; rewrite ?Hu; reflexivity. }
  assert (Hgen :
    silenceCount (state (snd (generateInstruction (brain s))))
    = silenceCount (state (brain s))
    /\ responseCount (state (snd (generateInstruction (brain s))))
       = responseCount (state (brain s))).
  { rewrite generateInstruction_state.
    destruct (getNextTool (brain s)); [rewrite markToolUsed_state_eq|]; split;
      reflexivity. }
  destruct Hgen as [G1 G2].
  destruct (Nat.eqb (List.length (conversationHistory s)) 0).
  - cbn [run fold_left call]. rewrite G1, G2. repeat split; [exact Hh | lia].
  - cbn [run fold_left call].
    destruct (recordSilence_counters (state (snd (generateInstruction (brain s)))))
      as (H1 & _ & _ & _ & _ & H2).
    unfold recordSilence, on_state; cbn [state].
    rewrite H1, H2, G1, G2. repeat split; exact Hh.
Qed.

Lemma unreal_message_is_silence_witness :
  let quotes := String (ascii_of_nat 34) (String (ascii_of_nat 34) EmptyString) in
  let s := snd (generateResponse true (Some "Good morning"%string)
                  (CompletionContent (Some "Hello!"%string))
                  (createChainedSession "zen-guide" sample_preferences
                     sample_context 0)) in
  hasRealMessage (Some quotes) = false
  /\ responseCount
       (state (brain (snd (generateResponse true (Some quotes)
                             CompletionFailed s)))) = 1
  /\ silenceCount
       (state (brain (snd (generateResponse true (Some quotes)
                             CompletionFailed s)))) = 1.
Proof.
  intros quotes s.
  assert (H0 : hasRealMessage (Some quotes) = false) by reflexivity.
  destruct (unreal_message_is_silence quotes CompletionFailed s H0)
    as (Hrc & _ & Hsc).
  split; [exact H0|]. split; [rewrite Hrc | rewrite Hsc]; reflexivity.
Defined.

(** X17.  In a chained session the history and the brain agree on what
    the user said: the number of user entries in the conversation
    history is the brain's [responseCount], after any requests served
    one after the other and whatever the outside services answer. *)
Theorem history_agrees_with_responseCount
    (client : bool) (persona : string) (prefs : Preferences) (ctx : Context)
    (now : Z) (rs : list Request) :
  let s := serve_all client rs (createChainedSession persona prefs ctx now) in
  Z.of_nat (List.length (user_entries (conversationHistory s)))
  = responseCount (state (brain s)).
Proof.
  cbv zeta.
  destruct (serve_all_as_calls client rs (createChainedSession persona prefs ctx now))
    as (cs & Hb & _ & Hu).
  rewrite Hb, Hu, run_responseCount. cbn. lia.
Qed.

(* ================================================================== *)
(** ** What the transcription hands on *)
(* ================================================================== *)

Lemma trim_blank_or_not (x : string) :
  Js.trim x = EmptyString \/ all_space (Js.trim x) = false.
Proof.
  unfold Js.trim.
  destruct (trimStart_cases x) as [-> | (c & r & -> & Ec)]; [left; reflexivity|].
  right. destruct (trimEnd_head c r Ec) as (r' & ->).
  cbn [all_space]. rewrite Ec. reflexivity.
Qed.

(** X18.  With a client, [transcribeAudio] never throws.  What it
    returns is the empty string or a trimmed text that holds more than
    whitespace; when the first model answered, the text returned also
    holds more than whitespace and the punctuation marks . , ! ? -
    (the noise filter is applied to the first model only). *)
Theorem transcribeAudio_result (primary fallback : Transcription) :
  exists y,
    transcribeAudio true primary fallback = Returned y
    /\ Js.trim y = y
    /\ (y = EmptyString
        \/ (all_space y = false
            /\ match primary with
               | TranscriptionText _ =>
                   JsRegExp.every punctuation_or_space y = false
               | TranscriptionFailed => True
               end)).
Proof.
  assert (Ht : forall t,
    trimmed_text t = EmptyString \/ all_space (trimmed_text t) = false).
  { intros [t|]; [apply trim_blank_or_not | left; reflexivity]. }
  destruct (transcribeAudio true primary fallback) as [y|] eqn:E.
  - exists y. split; [reflexivity|].
    split; [apply (transcribeAudio_trimmed true primary fallback y E)|].
    unfold transcribeAudio in E. cbn [negb] in E.
    destruct primary as [|t].
    + destruct fallback as [|t]; injection E as <-; [left; reflexivity|].
      destruct (Ht t) as [H|H]; [left; exact H | right; split; [exact H | exact I]].
    + destruct (existsb (fun pattern => pattern (trimmed_text t)) noisePatterns)
        eqn:En; injection E as <-; [left; reflexivity|].
      destruct (Ht t) as [H|H]; [left; exact H|]. right. split; [exact H|].
      unfold noisePatterns in En. cbn [existsb] in En.
      apply orb_false_iff in En. destruct En as [En _].
      unfold JsRegExp.one_or_more in En.
      destruct (trimmed_text t); [discriminate H | exact En].
  - unfold transcribeAudio in E. cbn [negb] in E.
    destruct primary; [destruct fallback|]; try discriminate E.
    destruct (existsb _ noisePatterns); discriminate E.
Qed.

(* ================================================================== *)
(** ** Silence count since the last genuine response *)
(* ================================================================== *)

Lemma quiet_run_silenceCount (cs : list Call) :
  forall b : WakeSessionBrain,
  forallb is_quiet cs = true ->
  silenceCount (state (run cs b))
  = silenceCount (state b) + Z.of_nat (List.length (filter is_silence cs)).
Proof.
  induction cs as [|c cs IH]; intros b Hcs; [cbn; lia|].
  cbn [forallb] in Hcs. apply andb_true_iff in Hcs. destruct Hcs as [Hc Hcs].
  rewrite run_cons, (IH _ Hcs).
  destruct c; cbn [is_quiet] in Hc; try discriminate Hc;
    cbn [call filter is_silence List.length].
  - destruct (recordSilence_counters (state b)) as (H & _).
    unfold recordSilence, on_state; cbn [state]. rewrite H. lia.
  - rewrite markToolUsed_state_eq. cbn. lia.
  - rewrite generateInstruction_state.
    destruct (getNextTool b); [rewrite markToolUsed_state_eq|]; cbn; lia.
Qed.

(** X19.  [silenceCount] counts the silences since the last response
    that was more than a lazy acknowledgment: such a response sets it
    to 0 from any state, and from there on, as long as the user says
    nothing, it is the number of [recordSilence] calls. *)
Theorem silenceCount_since_last_response
    (t : string) (b : WakeSessionBrain) (cs : list Call) :
  isLazy t = false ->
  forallb is_quiet cs = true ->
  silenceCount (state (run cs (recordUserResponse t b)))
  = Z.of_nat (List.length (filter is_silence cs)).
Proof.
  intros Hlazy Hcs. rewrite (quiet_run_silenceCount cs _ Hcs).
  destruct (recordUserResponse_fields t b) as (_ & _ & _ & _ & -> & _).
  rewrite Hlazy. lia.
Qed.

Lemma silenceCount_since_last_response_witness :
  let b := run (repeat RecordSilence 7) fresh in
  let cs := [RecordSilence; GenerateInstruction; RecordSilence] in
  isLazy "What time is it" = false
  /\ forallb is_quiet cs = true
  /\ silenceCount (state b) = 7
  /\ silenceCount (state (run cs (recordUserResponse "What time is it" b))) = 2.
Proof.
  intros b cs. split; [reflexivity|]. split; [reflexivity|].
  split; [reflexivity|].
  apply (silenceCount_since_last_response "What time is it" b cs eq_refl eq_refl).
Defined.

(* ================================================================== *)
(** ** Used tools come back through the rotation only *)
(* ================================================================== *)

Lemma call_keeps_used (t : EngagementTool) (c : Call) (b : WakeSessionBrain) :
  In t (toolsUsed (state b)) -> In t (toolsUsed (state (call c b))).
Proof.
  intros Hb. destruct (call_toolsUsed c b) as [-> | (u & _ & ->)]; [exact Hb|].
  apply in_or_app. left. exact Hb.
Qed.

(** X20.  A tool that is among the tools used is never again picked by
    the curated loop of [getNextTool]: wherever the session goes from
    there, if [getNextTool] returns that tool, no curated tool was
    eligible and the tool comes from the rotation through the
    repeatable pool. *)
Theorem used_tool_recurs_by_rotation_only
    (persona : string) (prefs : Preferences) (ctx : Context) (now : Z)
    (cs1 cs2 : list Call) (t : EngagementTool) :
  let b := run cs1 (new_WakeSessionBrain persona prefs ctx now) in
  let b' := run cs2 b in
  In t (toolsUsed (state b)) ->
  getNextTool b' = Some t ->
  find (eligible (state b')) (priority b') = None
  /\ In t (repeatableTools b').
Proof.
  intros b b' Hused Hnext.
  assert (Hused' : In t (toolsUsed (state b'))).
  { apply (run_invariant (fun b => In t (toolsUsed (state b)))).
    - intros c b0. apply call_keeps_used.
    - exact Hused. }
  assert (Hn : 0 <= silenceCount (state b')).
  { subst b' b. rewrite <- run_app.
    apply (run_invariant clamped call_clamped).
    unfold clamped; cbn. lia. }
  assert (Hnot : eligible (state b') t = false).
  { unfold eligible. apply includes_tool_In in Hused'. rewrite Hused'.
    reflexivity. }
  destruct (find (eligible (state b')) (priority b')) as [u|] eqn:Hfind.
  - exfalso. unfold getNextTool in Hnext.
    change (fun tool => negb (includes_tool (toolsUsed (state b')) tool)
                        && includes_tool (toolsAvailable (state b')) tool)
      with (eligible (state b')) in Hnext.
    rewrite Hfind in Hnext. injection Hnext as ->.
    apply find_some in Hfind. destruct Hfind as [_ He]. congruence.
  - split; [reflexivity|].
    destruct (getNextTool_origin b' t Hn Hnext) as [[_ He] | Hpool];
      [congruence | exact Hpool].
Qed.

Lemma used_tool_recurs_by_rotation_only_witness :
  let cs1 := repeat GenerateInstruction 3 in
  let cs2 := [GenerateInstruction; RecordSilence] in
  In interesting_fact (toolsUsed (state (run cs1 fresh)))
  /\ getNextTool (run cs2 (run cs1 fresh)) = Some interesting_fact
  /\ In interesting_fact (repeatableTools (run cs2 (run cs1 fresh))).
Proof.
  intros cs1 cs2.
  assert (H1 : In interesting_fact (toolsUsed (state (run cs1 fresh))))
    by (vm_compute; tauto).
  assert (H2 : getNextTool (run cs2 (run cs1 fresh)) = Some interesting_fact)
    by reflexivity.
  split; [exact H1|]. split; [exact H2|].
  apply (used_tool_recurs_by_rotation_only "morning-coach" sample_preferences
           sample_context 0 cs1 cs2 interesting_fact H1 H2).
Defined.

(* ================================================================== *)
(** ** Unknown personas *)
(* ================================================================== *)

Lemma unknown_persona_lookup (persona : string) :
  persona <> "zen-guide"%string ->
  persona <> "morning-coach"%string ->
  persona <> "strict-sergeant"%string ->
  (forall p, TOOL_PRIORITY persona p = None)
  /\ String.eqb persona "zen-guide" = false.
Proof.
  intros Hz Hm Hs. apply String.eqb_neq in Hz, Hm, Hs.
  split; [|exact Hz]. intros p. unfold TOOL_PRIORITY. rewrite Hz, Hm, Hs.
  reflexivity.
Qed.

Lemma unknown_persona_getNextTool (b1 b2 : WakeSessionBrain) :
  same_as_morning_coach b1 b2 -> getNextTool b1 = getNextTool b2.
Proof.
  intros (Hstate & H2 & Hz & Hm & Hs).
  destruct (unknown_persona_lookup (personaId b1) Hz Hm Hs) as [Hnone Hzen].
  assert (Hp : priority b1 = priority b2).
  { unfold priority. rewrite Hnone, H2, Hstate. reflexivity. }
  assert (Hr : repeatableTools b1 = repeatableTools b2).
  { unfold repeatableTools. rewrite Hzen, H2, Hstate. reflexivity. }
  unfold getNextTool. rewrite Hp, Hr, Hstate. reflexivity.
Qed.

Lemma unknown_persona_call (c : Call) (b1 b2 : WakeSessionBrain) :
  same_as_morning_coach b1 b2 ->
  same_as_morning_coach (call c b1) (call c b2).
Proof.
  intros H. pose proof (unknown_persona_getNextTool b1 b2 H) as Hnext.
  destruct H as (Hstate & H2 & Hz & Hm & Hs).
  assert (Hmark : forall tool,
    same_as_morning_coach (markToolUsed tool b1) (markToolUsed tool b2)).
  { intros tool. unfold same_as_morning_coach, markToolUsed, on_state.
    cbn [state personaId]. rewrite Hstate. tauto. }
  destruct c; cbn [call].
  - unfold same_as_morning_coach, recordUserResponse, on_state.
    cbn [state personaId]. rewrite Hstate. tauto.
  - unfold same_as_morning_coach, recordSilence, on_state.
    cbn [state personaId]. rewrite Hstate. tauto.
  - apply Hmark.
  - rewrite !generateInstruction_state, Hnext.
    destruct (getNextTool b2); [apply Hmark|].
    unfold same_as_morning_coach. tauto.
  - unfold same_as_morning_coach, markComplete, on_state.
    cbn [state personaId]. rewrite Hstate. tauto.
Qed.

(** X21.  A persona id without a table is served as [morning-coach]:
    started with the same preferences and context and taken through the
    same calls, the two brains are in the same state, [getNextTool]
    returns the same tool and [generateInstruction] the same
    instruction. *)
Theorem unknown_persona_is_morning_coach
    (persona : string) (prefs : Preferences) (ctx : Context) (now : Z)
    (cs : list Call) :
  persona <> "zen-guide"%string ->
  persona <> "morning-coach"%string ->
  persona <> "strict-sergeant"%string ->
  let b1 := run cs (new_WakeSessionBrain persona prefs ctx now) in
  let b2 := run cs (new_WakeSessionBrain "morning-coach" prefs ctx now) in
  state b1 = state b2
  /\ getNextTool b1 = getNextTool b2
  /\ fst (generateInstruction b1) = fst (generateInstruction b2).
Proof.
  intros Hz Hm Hs b1 b2.
  assert (H : same_as_morning_coach b1 b2).
  { subst b1 b2.
    generalize (new_WakeSessionBrain persona prefs ctx now)
               (new_WakeSessionBrain "morning-coach" prefs ctx now)
               (conj eq_refl (conj eq_refl (conj Hz (conj Hm Hs)))
                : same_as_morning_coach
                    (new_WakeSessionBrain persona prefs ctx now)
                    (new_WakeSessionBrain "morning-coach" prefs ctx now)).
    induction cs as [|c cs IH]; intros b1 b2 H; [exact H|].
    rewrite !run_cons. apply IH, unknown_persona_call, H. }
  pose proof (unknown_persona_getNextTool b1 b2 H) as Hnext.
  destruct H as (Hstate & _).
  split; [exact Hstate|]. split; [exact Hnext|].
  unfold generateInstruction; cbn [fst]. rewrite Hnext, Hstate. reflexivity.
Qed.

Lemma unknown_persona_is_morning_coach_witness :
  let cs := [GenerateInstruction; RecordSilence; GenerateInstruction] in
  "toString"%string <> "zen-guide"%string
  /\ getNextTool (run cs (new_WakeSessionBrain "toString" sample_preferences
                            sample_context 0))
     = Some interesting_fact.
Proof.
  intros cs.
  assert (Hz : "toString"%string <> "zen-guide"%string) by discriminate.
  assert (Hm : "toString"%string <> "morning-coach"%string) by discriminate.
  assert (Hs : "toString"%string <> "strict-sergeant"%string) by discriminate.
  split; [exact Hz|].
  destruct (unknown_persona_is_morning_coach "toString" sample_preferences
              sample_context 0 cs Hz Hm Hs) as (_ & Hnext & _).
  rewrite Hnext. reflexivity.
Defined.
